(** * Booking feasibility and extension engine

    A shallow embedding of [source/controllers/bookings.ts]: the request
    handlers [healthCheck], [createBooking] and [extendBooking], the
    feasibility check [isBookingPossible] and the date helper [addNights],
    over a model of the [prisma.booking] table that records every call made
    to it.

    Conventions of the model:
    - a JavaScript [number] is [NaN], an infinity or a finite value; finite
      values are rationals, and a sum is rounded to the nearest
      double-precision number (ties to even) as the language does; sums
      beyond the largest double are infinite;
    - a [Date] is either invalid or a whole day counted from 1970-01-01 (day
      granularity, the local time zone being UTC); every date the language
      builds lies within 100,000,000 days of that day or is invalid;
    - a query whose argument is an invalid date is rejected by the client,
      and so is the [async] function that awaits it;
    - the table holds the numbers it is given, and its ids are assigned by
      the table;
    - an [async] function is a state transformer over the table and the
      list of calls issued so far, which returns or is rejected. *)

From Stdlib Require Import ZArith QArith Qround Qabs List String Bool Lia Lqa.
Import ListNotations.

Open Scope Z_scope.

(** ** JavaScript numbers and dates *)

Module JS.

(** A value of type [number]. *)
Inductive number : Type :=
| NaN : number
| PosInf : number
| NegInf : number
| Num : Q -> number.

(** [!x] for a number: [true] for [NaN] and for zero. *)
Definition not_ (x : number) : bool :=
  match x with
  | NaN => true
  | PosInf | NegInf => false
  | Num q => Qeq_bool q 0
  end.

(** [x <= 0]; any comparison with [NaN] is [false]. *)
Definition le0 (x : number) : bool :=
  match x with
  | NaN | PosInf => false
  | NegInf => true
  | Num q => Qle_bool q 0
  end.

(** [n / d] rounded to the nearest integer, a tie going to the even one
    ([0 <= n], [0 < d]). *)
Definition rne (n d : Z) : Z :=
  let f := n / d in
  let r := n mod d in
  if 2 * r <? d then f
  else if d <? 2 * r then f + 1
  else if Z.even f then f else f + 1.

(** The double nearest to [a / b] ([0 < a], [0 < b]): a significand of 53
    bits, the last one decided by [rne]. *)
Definition froundPos (a b : Z) : Q :=
  if b <=? a then
    let e := Z.log2 (a / b) - 52 in
    if 0 <=? e
    then inject_Z (rne a (b * 2 ^ e) * 2 ^ e)
    else Qmake (rne (a * 2 ^ (- e)) b) (Z.to_pos (2 ^ (- e)))
  else
    let s := 53 + Z.log2 (b / a) in
    Qmake (rne (a * 2 ^ s) b) (Z.to_pos (2 ^ s)).

(** Rounding to double precision, before overflow is looked at. *)
Definition fround (q : Q) : Q :=
  match Qnum q with
  | 0 => 0%Q
  | Zpos a => Qred (froundPos (Zpos a) (Zpos (Qden q)))
  | Zneg a => Qred (- froundPos (Zpos a) (Zpos (Qden q)))
  end.

(** [x + y] on numbers. *)
Definition add (x y : number) : number :=
  match x, y with
  | NaN, _ | _, NaN => NaN
  | PosInf, NegInf | NegInf, PosInf => NaN
  | PosInf, _ | _, PosInf => PosInf
  | NegInf, _ | _, NegInf => NegInf
  | Num a, Num b =>
      let r := fround (a + b) in
      if Qle_bool (inject_Z (2 ^ 1024)) r then PosInf
      else if Qle_bool r (inject_Z (- 2 ^ 1024)) then NegInf
      else Num r
  end.

(** The number a decimal literal [m]e[e] denotes (in the normal range). *)
Definition decimal (m e : Z) : Q :=
  fround (if 0 <=? e then inject_Z (m * 10 ^ e)
          else Qmake m (Z.to_pos (10 ^ (- e)))).

(** ToIntegerOrInfinity on a finite number: rounding towards zero. *)
Definition truncate (q : Q) : Z :=
  if Qle_bool 0 q then Qfloor q else Qceiling q.

(** Whether a finite number is a whole number. *)
Definition isInteger (q : Q) : bool :=
  Qeq_bool q (inject_Z (Qfloor q)).

(** A [Date] object. *)
Inductive Date : Type :=
| InvalidDate : Date
| Day : Z -> Date.

(** The days a time value can reach: 8.64e15 milliseconds either side of the
    epoch. *)
Definition maxDay : Z := 100000000.

Definition inRange (t : Z) : bool := (- maxDay <=? t) && (t <=? maxDay).

(** [new Date(d)]: a copy, the time value clipped to the range. *)
Definition newDate (d : Date) : Date :=
  match d with
  | InvalidDate => InvalidDate
  | Day t => if inRange t then Day t else InvalidDate
  end.

Definition isValid (d : Date) : bool :=
  match newDate d with
  | InvalidDate => false
  | Day _ => true
  end.

(** The day of the month (1..31) of day number [t] in the proleptic
    Gregorian calendar. *)
Definition dayOfMonth (t : Z) : Z :=
  let z := t + 719468 in
  let era := z / 146097 in
  let doe := z - era * 146097 in
  let yoe := (doe - doe / 1460 + doe / 36524 - doe / 146096) / 365 in
  let doy := doe - (365 * yoe + yoe / 4 - yoe / 100) in
  let mp := (5 * doy + 2) / 153 in
  doy - (153 * mp + 2) / 5 + 1.

(** [d.getDate()]: [NaN] for an invalid date. *)
Definition getDate (d : Date) : number :=
  match d with
  | InvalidDate => NaN
  | Day t => Num (inject_Z (dayOfMonth t))
  end.

(** [d.setDate(x)]: the day of the month becomes [truncate x], counted from
    the first day of [d]'s month; values outside the month roll over into
    the neighbouring months; the date becomes invalid when [d] is, when [x]
    is not finite, or when the result leaves the range. *)
Definition setDate (d : Date) (x : number) : Date :=
  match d, x with
  | Day t, Num q => newDate (Day ((t - dayOfMonth t + 1) + (truncate q - 1)))
  | _, _ => InvalidDate
  end.

(** [a < b] on dates: the comparison of the time values, [false] when one of
    them is [NaN]. *)
Definition ltDate (a b : Date) : bool :=
  match a, b with
  | Day x, Day y => x <? y
  | _, _ => false
  end.

(** Equality of two dates as the table tests it. *)
Definition eqDate (a b : Date) : bool :=
  match a, b with
  | Day x, Day y => x =? y
  | _, _ => false
  end.

End JS.

Import JS.

(** ** The persisted table *)

Module Prisma.

(** A record of the [booking] table. *)
Record booking : Type := mkRow {
  id : Z;
  guestName : string;
  unitID : string;
  checkInDate : Date;
  numberOfNights : Q
}.

(** The calls a handler can issue to [prisma.booking]. *)
Inductive Call : Type :=
| FindMany
| FindUnique
| Create
| Update.

(** The table together with the calls issued so far, oldest first. *)
Record World : Type := mkWorld {
  table : list booking;
  calls : list Call
}.

(** How an awaited promise settles. *)
Inductive Completion (A : Type) : Type :=
| Returned : A -> Completion A
| Rejected : Completion A.

Arguments Returned {A} _.
Arguments Rejected {A}.

(** An [async] computation. *)
Definition Async (A : Type) : Type := World -> Completion A * World.

Definition ret {A : Type} (a : A) : Async A := fun w => (Returned a, w).

(** [await c] followed by [k]: a rejection of [c] ends the function. *)
Definition bind {A B : Type} (c : Async A) (k : A -> Async B) : Async B :=
  fun w =>
    match c w with
    | (Returned a, w') => k a w'
    | (Rejected, w') => (Rejected, w')
    end.

Definition issue (c : Call) (w : World) : World :=
  mkWorld (table w) (calls w ++ [c]).

(** The [where] objects the controller builds: each filter present or not. *)
Record Where : Type := mkWhere {
  guestNameEquals : option string;
  unitIDEquals : option string;
  idNot : option Z;
  checkInDateEquals : option Date;
  checkInDateLt : option Date
}.

Definition holds {A : Type} (f : option A) (p : A -> bool) : bool :=
  match f with
  | None => true
  | Some a => p a
  end.

Definition matches (wh : Where) (r : booking) : bool :=
  holds (guestNameEquals wh) (fun g => (guestName r =? g)%string)
  && holds (unitIDEquals wh) (fun u => (unitID r =? u)%string)
  && holds (idNot wh) (fun i => negb (id r =? i))
  && holds (checkInDateEquals wh) (fun d => eqDate (checkInDate r) d)
  && holds (checkInDateLt wh) (fun d => ltDate (checkInDate r) d).

(** The client validates the arguments before it queries: an invalid date
    is refused. *)
Definition validWhere (wh : Where) : bool :=
  holds (checkInDateEquals wh) isValid && holds (checkInDateLt wh) isValid.

(** [prisma.booking.findMany({ where })]. *)
Definition findMany (wh : Where) : Async (list booking) :=
  fun w =>
    (if validWhere wh then Returned (filter (matches wh) (table w))
     else Rejected,
     issue FindMany w).

(** [prisma.booking.findUnique({ where: { id } })]. *)
Definition findUnique (i : Z) : Async (option booking) :=
  fun w => (Returned (find (fun r => id r =? i) (table w)),
            issue FindUnique w).

(** Modelled from the spec: the schema of the table is not part of the
    sources; the persistence collaborator assigns the [id] at creation and
    ids are unique.  The next id is one more than the largest in use. *)
Definition nextId (t : list booking) : Z :=
  fold_right (fun r m => Z.max (id r + 1) m) 1 t.

(** [prisma.booking.create({ data: { guestName, unitID, checkInDate,
    numberOfNights } })]; a date that is invalid or a number that is not
    finite cannot be stored. *)
Definition create (guestName_ unitID_ : string) (checkInDate_ : Date)
    (numberOfNights_ : number) : Async booking :=
  fun w =>
    match newDate checkInDate_, numberOfNights_ with
    | Day t, Num q =>
        let r := mkRow (nextId (table w)) guestName_ unitID_ (Day t) q in
        (Returned r, mkWorld (table w ++ [r]) (calls w ++ [Create]))
    | _, _ => (Rejected, issue Create w)
    end.

Definition setNights (n : Q) (r : booking) : booking :=
  mkRow (id r) (guestName r) (unitID r) (checkInDate r) n.

(** [prisma.booking.update({ where: { id }, data: { numberOfNights } })]:
    the updated record; the call is rejected when no record has that id or
    when the number is not finite. *)
Definition update (i : Z) (n : number) : Async booking :=
  fun w =>
    match n, find (fun r => id r =? i) (table w) with
    | Num q, Some r =>
        (Returned (setNights q r),
         mkWorld (map (fun r => if id r =? i then setNights q r else r)
                      (table w))
                 (calls w ++ [Update]))
    | _, _ => (Rejected, issue Update w)
    end.

End Prisma.

Import Prisma.

(** ** The request payload *)

(** [interface Booking]: the body of a create request. *)
Record Booking : Type := mkBooking {
  guestName : string;
  unitID : string;
  checkInDate : Date;
  numberOfNights : number
}.

Notation "x <- c ;; k" := (bind c (fun x => k))
  (at level 61, c at next level, right associativity).

(** ** The responses of the handlers *)

Inductive Body : Type :=
| Text : string -> Body              (* a JSON string *)
| Message : string -> Body           (* { message: ... } *)
| Saved : Prisma.booking -> Body.    (* a booking record *)

Inductive Response : Type :=
| Json : Z -> Body -> Response       (* res.status(s).json(b) *)
| Thrown : Response.                 (* the handler's promise was rejected *)

(** [type BookingOutcome]. *)
Record BookingOutcome : Type := mkOutcome {
  result : bool;
  reason : string
}.

(** ** The controller *)

(** [healthCheck]. *)
Definition healthCheck : Async Response :=
  ret (Json 200 (Message "OK")).

(** [addNights(date, nights)]. *)
Definition addNights (date : Date) (nights : number) : Date :=
  let d := newDate date in
  setDate d (add (getDate d) nights).

(** The [for] loop of [isBookingPossible] over [unitCandidates]: the first
    overlapping candidate ends the function. *)
Fixpoint scanUnitCandidates (newCheckIn newCheckOut : Date)
    (unitCandidates : list Prisma.booking) : BookingOutcome :=
  match unitCandidates with
  | [] => mkOutcome true "OK"
  | b :: rest =>
      let bCheckIn := newDate (Prisma.checkInDate b) in
      let bCheckOut := addNights bCheckIn (Num (Prisma.numberOfNights b)) in
      let overlaps :=
        ltDate newCheckIn bCheckOut && ltDate bCheckIn newCheckOut in
      if overlaps
      then mkOutcome false "For the given check-in date, the unit is already occupied"
      else scanUnitCandidates newCheckIn newCheckOut rest
  end.

Definition isBookingPossible (booking : Booking) : Async BookingOutcome :=
  (* check 1 *)
  sameGuestSameUnit <-
    findMany {| guestNameEquals := Some (guestName booking);
                unitIDEquals := Some (unitID booking);
                idNot := None;
                checkInDateEquals := None;
                checkInDateLt := None |} ;;
  if (0 <? List.length sameGuestSameUnit)%nat
  then ret (mkOutcome false "The given guest name cannot book the same unit multiple times")
  else
  (* check 2 *)
  sameGuestAlreadyBooked <-
    findMany {| guestNameEquals := Some (guestName booking);
                unitIDEquals := None;
                idNot := None;
                checkInDateEquals := None;
                checkInDateLt := None |} ;;
  if (0 <? List.length sameGuestAlreadyBooked)%nat
  then ret (mkOutcome false "The same guest cannot be in multiple units at the same time")
  else
  (* check 3 *)
  isUnitAvailableOnCheckInDate <-
    findMany {| guestNameEquals := None;
                unitIDEquals := Some (unitID booking);
                idNot := None;
                checkInDateEquals := Some (newDate (checkInDate booking));
                checkInDateLt := None |} ;;
  if (0 <? List.length isUnitAvailableOnCheckInDate)%nat
  then ret (mkOutcome false "For the given check-in date, the unit is already occupied")
  else
  let newCheckIn := newDate (checkInDate booking) in
  let newCheckOut := addNights newCheckIn (numberOfNights booking) in
  unitCandidates <-
    findMany {| guestNameEquals := None;
                unitIDEquals := Some (unitID booking);
                idNot := None;
                checkInDateEquals := None;
                checkInDateLt := Some newCheckOut |} ;;
  ret (scanUnitCandidates newCheckIn newCheckOut unitCandidates).

Definition createBooking (booking : Booking) : Async Response :=
  outcome <- isBookingPossible booking ;;
  if negb (result outcome)
  then ret (Json 400 (Text (reason outcome)))
  else
  bookingResult <-
    create (guestName booking) (unitID booking)
           (newDate (checkInDate booking)) (numberOfNights booking) ;;
  ret (Json 200 (Saved bookingResult)).

(** The [for] loop of [extendBooking] over [conflictingBookings]: [true] when
    some booking makes the handler answer 409. *)
Fixpoint scanConflictingBookings (currentCheckout proposedCheckout : Date)
    (conflictingBookings : list Prisma.booking) : bool :=
  match conflictingBookings with
  | [] => false
  | other :: rest =>
      let otherCheckIn := newDate (Prisma.checkInDate other) in
      let otherCheckOut :=
        setDate (newDate otherCheckIn)
                (add (getDate otherCheckIn)
                     (Num (Prisma.numberOfNights other))) in
      if ltDate currentCheckout otherCheckOut
         && ltDate otherCheckIn proposedCheckout
      then true
      else scanConflictingBookings currentCheckout proposedCheckout rest
  end.

(** [extendBooking], with [bookingId] and [extraNights] as the handler
    computes them from the request ([parseInt], [Number]). *)
Definition extendBooking (bookingId : Z) (extraNights : number)
    : Async Response :=
  (* validate input *)
  if JS.not_ extraNights || JS.le0 extraNights
  then ret (Json 400 (Message "Extra nights should be a valid number"))
  else
  (* find booking *)
  found <- findUnique bookingId ;;
  match found with
  | None => ret (Json 404 (Message "Booking not found"))
  | Some booking =>
  (* calculate current and proposed checkout *)
  let checkIn := newDate (Prisma.checkInDate booking) in
  let currentCheckout :=
    setDate (newDate checkIn)
            (add (getDate checkIn) (Num (Prisma.numberOfNights booking))) in
  let proposedCheckout :=
    setDate (newDate currentCheckout)
            (add (getDate currentCheckout) extraNights) in
  (* check if the unit is free in the extension window *)
  conflictingBookings <-
    findMany {| guestNameEquals := None;
                unitIDEquals := Some (Prisma.unitID booking);
                idNot := Some (Prisma.id booking);
                checkInDateEquals := None;
                checkInDateLt := Some proposedCheckout |} ;;
  if scanConflictingBookings currentCheckout proposedCheckout
       conflictingBookings
  then ret (Json 409 (Message "Extension not possible; unit is taken in that period"))
  else
  (* update the booking *)
  updatedBooking <-
    update (Prisma.id booking)
           (add (Num (Prisma.numberOfNights booking)) extraNights) ;;
  ret (Json 200 (Saved updatedBooking))
  end.

(** What a handler did: the response the client gets and the state left. *)
Definition response (r : Completion Response * World) : Response :=
  match fst r with
  | Returned x => x
  | Rejected => Thrown
  end.

Definition after {A : Type} (r : A * World) : World := snd r.

(** How an awaited function settled. *)
Definition settled {A : Type} (r : Completion A * World) : Completion A :=
  fst r.

(** ** The vocabulary of the specification *)

(** The reason codes, as the texts the handlers answer with. *)
Definition GUEST_UNIT_DUPLICATE : string :=
  "The given guest name cannot book the same unit multiple times".
Definition GUEST_ALREADY_BOOKED : string :=
  "The same guest cannot be in multiple units at the same time".
Definition UNIT_OCCUPIED : string :=
  "For the given check-in date, the unit is already occupied".
Definition INVALID_EXTRA_NIGHTS : string :=
  "Extra nights should be a valid number".
Definition BOOKING_NOT_FOUND : string := "Booking not found".
Definition EXTENSION_CONFLICT : string :=
  "Extension not possible; unit is taken in that period".

(** The interval [[checkIn, checkOut)] of a persisted booking, as the
    controller computes it. *)
Definition checkIn (r : Prisma.booking) : Date :=
  newDate (Prisma.checkInDate r).

Definition checkOut (r : Prisma.booking) : Date :=
  addNights (checkIn r) (Num (Prisma.numberOfNights r)).

Definition overlaps (a b : Prisma.booking) : bool :=
  ltDate (checkIn a) (checkOut b) && ltDate (checkIn b) (checkOut a).

(** No two distinct bookings on the same unit overlap. *)
Definition noOverlap (t : list Prisma.booking) : Prop :=
  forall a b, In a t -> In b t -> Prisma.id a <> Prisma.id b ->
    Prisma.unitID a = Prisma.unitID b -> overlaps a b = false.

(** The same, as a test. *)
Definition noOverlapb (t : list Prisma.booking) : bool :=
  forallb (fun a =>
    forallb (fun b =>
      (Prisma.id a =? Prisma.id b)
      || negb (Prisma.unitID a =? Prisma.unitID b)%string
      || negb (overlaps a b)) t) t.

(** The primary key of the table. *)
Definition uniqueIds (t : list Prisma.booking) : Prop :=
  NoDup (map Prisma.id t).


(** Every booking lasts at least one night. *)
Definition nightsAtLeastOne (t : list Prisma.booking) : Prop :=
  Forall (fun r => (1 <= Prisma.numberOfNights r)%Q) t.

(** Every booking lasts a positive whole number of nights. *)
Definition wholeNights (t : list Prisma.booking) : Prop :=
  Forall (fun r => isInteger (Prisma.numberOfNights r) = true
                   /\ (1 <= Prisma.numberOfNights r)%Q) t.

(** Every booking has a check-in and a checkout that are valid dates. *)
Definition validStays (t : list Prisma.booking) : Prop :=
  Forall (fun r => isValid (checkOut r) = true) t.

(** The candidate's interval, as [isBookingPossible] computes it. *)
Definition candidateCheckIn (c : Booking) : Date :=
  newDate (checkInDate c).

Definition candidateCheckOut (c : Booking) : Date :=
  addNights (candidateCheckIn c) (numberOfNights c).

(** The four checks of the feasibility engine, each as a test on the whole
    table. *)
Definition sameGuestSameUnit (c : Booking) (t : list Prisma.booking) : bool :=
  existsb (fun r => (Prisma.guestName r =? guestName c)%string
                    && (Prisma.unitID r =? unitID c)%string) t.

Definition guestAlreadyBooked (c : Booking) (t : list Prisma.booking) : bool :=
  existsb (fun r => (Prisma.guestName r =? guestName c)%string) t.

Definition checkInCollision (c : Booking) (t : list Prisma.booking) : bool :=
  existsb (fun r => (Prisma.unitID r =? unitID c)%string
                    && eqDate (Prisma.checkInDate r) (candidateCheckIn c)) t.

Definition candidateOverlaps (c : Booking) (r : Prisma.booking) : bool :=
  ltDate (candidateCheckIn c) (checkOut r)
  && ltDate (checkIn r) (candidateCheckOut c).

Definition intervalOverlap (c : Booking) (t : list Prisma.booking) : bool :=
  existsb (fun r => (Prisma.unitID r =? unitID c)%string
                    && ltDate (Prisma.checkInDate r) (candidateCheckOut c)
                    && candidateOverlaps c r) t.

(** The specification's ordered sequence of checks: the first one that fails
    gives the reason.  The third and the fourth check query the table with
    the candidate's check-in and checkout, and are rejected when that date
    is invalid. *)
Definition firstFailingCheck (c : Booking) (t : list Prisma.booking)
    : Completion BookingOutcome :=
  if sameGuestSameUnit c t
  then Returned (mkOutcome false GUEST_UNIT_DUPLICATE)
  else if guestAlreadyBooked c t
  then Returned (mkOutcome false GUEST_ALREADY_BOOKED)
  else if negb (isValid (candidateCheckIn c)) then Rejected
  else if checkInCollision c t
  then Returned (mkOutcome false UNIT_OCCUPIED)
  else if negb (isValid (candidateCheckOut c)) then Rejected
  else if intervalOverlap c t
  then Returned (mkOutcome false UNIT_OCCUPIED)
  else Returned (mkOutcome true "OK").

(** The number of queries [isBookingPossible] issues. *)
Definition queriesIssued (c : Booking) (t : list Prisma.booking) : nat :=
  if sameGuestSameUnit c t then 1
  else if guestAlreadyBooked c t then 2
  else if negb (isValid (candidateCheckIn c)) || checkInCollision c t then 3
  else 4.

(** [isBookingPossible] with its check 3 taken out: the variant the
    specification says returns the same outcome. *)
Definition isBookingPossible_without_check3 (booking : Booking)
    : Async BookingOutcome :=
  (* check 1 *)
  sameGuestSameUnit <-
    findMany {| guestNameEquals := Some (guestName booking);
                unitIDEquals := Some (unitID booking);
                idNot := None;
                checkInDateEquals := None;
                checkInDateLt := None |} ;;
  if (0 <? List.length sameGuestSameUnit)%nat
  then ret (mkOutcome false "The given guest name cannot book the same unit multiple times")
  else
  (* check 2 *)
  sameGuestAlreadyBooked <-
    findMany {| guestNameEquals := Some (guestName booking);
                unitIDEquals := None;
                idNot := None;
                checkInDateEquals := None;
                checkInDateLt := None |} ;;
  if (0 <? List.length sameGuestAlreadyBooked)%nat
  then ret (mkOutcome false "The same guest cannot be in multiple units at the same time")
  else
  let newCheckIn := newDate (checkInDate booking) in
  let newCheckOut := addNights newCheckIn (numberOfNights booking) in
  unitCandidates <-
    findMany {| guestNameEquals := None;
                unitIDEquals := Some (unitID booking);
                idNot := None;
                checkInDateEquals := None;
                checkInDateLt := Some newCheckOut |} ;;
  ret (scanUnitCandidates newCheckIn newCheckOut unitCandidates).

(** The extension window of booking [b] for [extra] more nights, as
    [extendBooking] computes it. *)
Definition currentCheckout (b : Prisma.booking) : Date :=
  setDate (newDate (checkIn b))
          (add (getDate (checkIn b)) (Num (Prisma.numberOfNights b))).

Definition proposedCheckout (b : Prisma.booking) (extra : number) : Date :=
  setDate (newDate (currentCheckout b))
          (add (getDate (currentCheckout b)) extra).

(** The conflict condition of the extension engine: another booking of the
    unit that starts before the proposed checkout and meets the window test,
    the checkouts being the dates the controller computes. *)
Definition extensionConflict (b : Prisma.booking) (extra : number)
    (t : list Prisma.booking) : Prop :=
  exists other, In other t
    /\ Prisma.unitID other = Prisma.unitID b
    /\ Prisma.id other <> Prisma.id b
    /\ ltDate (Prisma.checkInDate other) (proposedCheckout b extra) = true
    /\ ltDate (currentCheckout b) (checkOut other) = true
    /\ ltDate (checkIn other) (proposedCheckout b extra) = true.

(** The same condition as a test on the table. *)
Definition extensionConflictb (b : Prisma.booking) (extra : number)
    (t : list Prisma.booking) : bool :=
  existsb (fun other =>
             (Prisma.unitID other =? Prisma.unitID b)%string
             && negb (Prisma.id other =? Prisma.id b)
             && ltDate (Prisma.checkInDate other) (proposedCheckout b extra)
             && (ltDate (currentCheckout b) (checkOut other)
                 && ltDate (checkIn other) (proposedCheckout b extra))) t.





(** The record [create] adds to table [t] for candidate [c] of [q] nights. *)
Definition createdRow (c : Booking) (q : Q) (t : list Prisma.booking)
    : Prisma.booking :=
  mkRow (nextId t) (guestName c) (unitID c) (candidateCheckIn c) q.

(** The extra-night counts the specification calls invalid: not a number,
    zero, or negative. *)
Definition invalidExtraNights (x : number) : Prop :=
  match x with
  | NaN | NegInf => True
  | PosInf => False
  | Num q => (q == 0)%Q \/ (q < 0)%Q
  end.

(** Guest [g] holds a booking, and only on unit [unit_]. *)
Definition holdsOnly (g unit_ : string) (t : list Prisma.booking) : Prop :=
  (exists r, In r t /\ Prisma.guestName r = g)
  /\ forall r, In r t -> Prisma.guestName r = g -> Prisma.unitID r = unit_.

(** The candidate's interval meets the interval of [r]. *)
Definition meets (c : Booking) (r : Prisma.booking) : Prop :=
  ltDate (candidateCheckIn c) (checkOut r) = true
  /\ ltDate (checkIn r) (candidateCheckOut c) = true.

(** ** Requests *)

(** The requests the three exported handlers answer (the tests post them to
    [/booking] and [/booking/:id/extend]). *)
Inductive Request : Type :=
| GetHealth : Request
| PostBooking : Booking -> Request
| PostExtend : Z -> number -> Request.

Definition serve (q : Request) : Async Response :=
  match q with
  | GetHealth => healthCheck
  | PostBooking booking => createBooking booking
  | PostExtend bookingId extraNights => extendBooking bookingId extraNights
  end.

(** Requests served one after the other, each on the state the previous one
    left. *)
Fixpoint serveAll (qs : list Request) (w : World) : World :=
  match qs with
  | [] => w
  | q :: rest => serveAll rest (after (serve q w))
  end.


(** ** Scenarios *)

(** 2024-10-04. *)
Definition today : Z := 20000.

Definition emptyWorld : World := mkWorld [] [].

Definition GUEST_A_UNIT_1 : Booking :=
  mkBooking "GuestA" "1" (Day today) (Num 5).
Definition GUEST_A_UNIT_2 : Booking :=
  mkBooking "GuestA" "2" (Day today) (Num 5).
Definition GUEST_B_UNIT_1 : Booking :=
  mkBooking "GuestB" "1" (Day today) (Num 5).

(** GuestC books unit 1 from the day GuestA checks out, for two nights. *)
Definition blocker : Booking :=
  mkBooking "GuestC" "1" (Day (today + 5)) (Num 2).

(** A booking of no nights at all, starting the day GuestA checks out. *)
Definition zeroNights : Booking :=
  mkBooking "GuestZ" "1" (Day (today + 5)) (Num 0).

(** A guest arriving the day GuestA checks out. *)
Definition backToBack : Booking :=
  mkBooking "GuestB" "1" (Day (today + 5)) (Num 2).

(** A stay of a thousand million nights. *)
Definition endlessStay : Booking :=
  mkBooking "GuestB" "1" (Day today) (Num (inject_Z (10 ^ 9))).

Definition rowA : Prisma.booking := mkRow 1 "GuestA" "1" (Day today) 5.

Definition worldA : World := after (createBooking GUEST_A_UNIT_1 emptyWorld).
Definition worldAC : World := after (createBooking blocker worldA).
Definition worldZ : World := after (createBooking zeroNights emptyWorld).

(** GuestA from 2024-10-28 for four nights, GuestC from 2024-11-01 for two,
    and an extension by the double just below one. *)
Definition october28 : Z := 20024.
Definition worldOctober : World :=
  after (createBooking (mkBooking "GuestC" "1" (Day (october28 + 4)) (Num 2))
    (after (createBooking (mkBooking "GuestA" "1" (Day october28) (Num 4))
              emptyWorld))).
Definition almostOne : Q := decimal 9999999999999998 (-16).


(** ** Proof automation *)

(** Settles the goals left once the cascade of checks has been split. *)
Ltac settle_reasons :=
  cbn [result reason];
  repeat split; intros;
  repeat match goal with
         | H : exists _, _ |- _ => destruct H
         | H : _ /\ _ |- _ => destruct H
         | H : Returned _ = Returned _ |- _ => injection H as <-
         | H : Rejected = Returned _ |- _ => discriminate H
         end;
  cbn [reason] in *;
  try discriminate; try tauto;
  try (eexists; split; reflexivity);
  try match goal with
      | H : false = true |- _ => discriminate H
      | H : ~ (true = true) |- _ => now elim H
      | |- ~ _ => intros ?; discriminate
      end.

(** * Properties *)

(** Keep the arithmetic folded when goals are simplified. *)
Arguments add : simpl never.
Arguments fround : simpl never.
Arguments dayOfMonth : simpl never.
Arguments truncate : simpl never.
Arguments inRange : simpl never.
Arguments addNights : simpl never.

(** ** Rounding to double precision *)

Lemma rne_lower (n d k : Z) : 0 < d -> k * d <= n -> k <= rne n d.
Proof.
  intros Hd H. unfold rne.
  assert (k <= n / d) by (apply Z.div_le_lower_bound; lia).
  destruct (2 * (n mod d) <? d); [lia|].
  destruct (d <? 2 * (n mod d)); [lia|].
  destruct (Z.even (n / d)); lia.
Qed.

Lemma rne_upper (n d k : Z) : 0 < d -> n <= k * d -> rne n d <= k.
Proof.
  intros Hd H. unfold rne.
  pose proof (Z.div_mod n d ltac:(lia)) as E.
  pose proof (Z.mod_pos_bound n d Hd) as B.
  assert (L : n / d <= k) by (apply Z.div_le_upper_bound; lia).
  destruct (Z.eq_dec (n / d) k) as [K|K].
  - assert (n mod d = 0) by nia.
    replace (2 * (n mod d) <? d) with true
      by (symmetry; apply Z.ltb_lt; lia).
    lia.
  - destruct (2 * (n mod d) <? d); [lia|].
    destruct (d <? 2 * (n mod d)); [lia|].
    destruct (Z.even (n / d)); lia.
Qed.

Lemma rne_nonneg (n d : Z) : 0 < d -> 0 <= n -> 0 <= rne n d.
Proof. intros Hd Hn. apply rne_lower; lia. Qed.

Lemma Qmake_pow_ge (m z s : Z) :
  0 <= s -> z * 2 ^ s <= m -> (inject_Z z <= Qmake m (Z.to_pos (2 ^ s)))%Q.
Proof.
  intros Hs H. unfold Qle. simpl.
  rewrite Z2Pos.id by (apply Z.pow_pos_nonneg; lia). lia.
Qed.

Lemma Qmake_pow_le (m z s : Z) :
  0 <= s -> m <= z * 2 ^ s -> (Qmake m (Z.to_pos (2 ^ s)) <= inject_Z z)%Q.
Proof.
  intros Hs H. unfold Qle. simpl.
  rewrite Z2Pos.id by (apply Z.pow_pos_nonneg; lia). lia.
Qed.

Lemma froundPos_lower (a b z : Z) :
  0 < a -> 0 < b -> z <= 2 ^ 53 -> z * b <= a ->
  (inject_Z z <= froundPos a b)%Q.
Proof.
  intros Ha Hb Hz H. unfold froundPos.
  destruct (b <=? a) eqn:Eba.
  - apply Z.leb_le in Eba.
    assert (Hq : 0 < a / b) by (apply Z.div_str_pos; lia).
    pose proof (Z.log2_spec (a / b) Hq) as [Lo _].
    pose proof (Z.log2_nonneg (a / b)) as Ln.
    set (L := Z.log2 (a / b)) in *.
    destruct (0 <=? L - 52) eqn:Ee.
    + apply Z.leb_le in Ee. rewrite <- Zle_Qle.
      assert (P : 0 < 2 ^ (L - 52)) by (apply Z.pow_pos_nonneg; lia).
      assert (S : 2 ^ L = 2 ^ 52 * 2 ^ (L - 52)).
      { rewrite <- Z.pow_add_r by lia. f_equal. lia. }
      assert (M : 2 ^ 52 <= rne a (b * 2 ^ (L - 52))).
      { apply rne_lower; [nia|].
        pose proof (Z.mul_div_le a b Hb). nia. }
      destruct (Z.eq_dec (L - 52) 0) as [E0|E0].
      * rewrite E0 in *. change (2 ^ 0) with 1 in *. rewrite !Z.mul_1_r.
        apply rne_lower; lia.
      * assert (2 <= 2 ^ (L - 52)).
        { change 2 with (2 ^ 1) at 1. apply Z.pow_le_mono_r; lia. }
        change (2 ^ 53) with (2 ^ 52 * 2) in Hz. nia.
    + apply Z.leb_gt in Ee. apply Qmake_pow_ge; [lia|].
      assert (P : 0 < 2 ^ (- (L - 52))) by (apply Z.pow_pos_nonneg; lia).
      apply rne_lower; [lia|]. nia.
  - apply Z.leb_gt in Eba.
    pose proof (Z.log2_nonneg (b / a)) as Ln.
    apply Qmake_pow_ge; [lia|].
    assert (P : 0 < 2 ^ (53 + Z.log2 (b / a)))
      by (apply Z.pow_pos_nonneg; lia).
    apply rne_lower; [lia|]. nia.
Qed.

Lemma froundPos_upper (a b z : Z) :
  0 < a -> 0 < b -> z < 2 ^ 53 -> a <= z * b ->
  (froundPos a b <= inject_Z z)%Q.
Proof.
  intros Ha Hb Hz H. unfold froundPos.
  destruct (b <=? a) eqn:Eba.
  - apply Z.leb_le in Eba.
    assert (Hq : 0 < a / b) by (apply Z.div_str_pos; lia).
    pose proof (Z.log2_spec (a / b) Hq) as [Lo _].
    pose proof (Z.log2_nonneg (a / b)) as Ln.
    set (L := Z.log2 (a / b)) in *.
    destruct (0 <=? L - 52) eqn:Ee.
    + apply Z.leb_le in Ee. rewrite <- Zle_Qle.
      assert (P : 0 < 2 ^ (L - 52)) by (apply Z.pow_pos_nonneg; lia).
      assert (S : 2 ^ L = 2 ^ 52 * 2 ^ (L - 52)).
      { rewrite <- Z.pow_add_r by lia. f_equal. lia. }
      pose proof (Z.mul_div_le a b Hb) as Q1.
      destruct (Z.eq_dec (L - 52) 0) as [E0|E0].
      * rewrite E0 in *. change (2 ^ 0) with 1 in *. rewrite !Z.mul_1_r.
        apply rne_upper; lia.
      * exfalso.
        assert (2 <= 2 ^ (L - 52)).
        { change 2 with (2 ^ 1) at 1. apply Z.pow_le_mono_r; lia. }
        change (2 ^ 53) with (2 ^ 52 * 2) in Hz. nia.
    + apply Z.leb_gt in Ee. apply Qmake_pow_le; [lia|].
      assert (P : 0 < 2 ^ (- (L - 52))) by (apply Z.pow_pos_nonneg; lia).
      apply rne_upper; [lia|]. nia.
  - apply Z.leb_gt in Eba.
    pose proof (Z.log2_nonneg (b / a)) as Ln.
    apply Qmake_pow_le; [lia|].
    assert (P : 0 < 2 ^ (53 + Z.log2 (b / a)))
      by (apply Z.pow_pos_nonneg; lia).
    apply rne_upper; [lia|]. nia.
Qed.

Lemma froundPos_nonneg (a b : Z) : 0 < a -> 0 < b -> (0 <= froundPos a b)%Q.
Proof.
  intros Ha Hb. change 0%Q with (inject_Z 0).
  apply froundPos_lower; lia.
Qed.

Lemma fround_ge (z : Z) (q : Q) :
  - 2 ^ 53 < z <= 2 ^ 53 -> (inject_Z z <= q)%Q -> (inject_Z z <= fround q)%Q.
Proof.
  intros Hz H. destruct q as [n d].
  assert (H' : z * Zpos d <= n) by (unfold Qle in H; simpl in H; lia).
  unfold fround. cbn [Qnum Qden]. destruct n as [|a|a].
  - unfold Qle. cbn. lia.
  - eapply Qle_trans; [apply (froundPos_lower (Zpos a) (Zpos d) z); lia|].
    rewrite Qred_correct. apply Qle_refl.
  - eapply Qle_trans;
      [|rewrite Qred_correct; apply Qle_refl].
    setoid_replace (inject_Z z) with (- inject_Z (- z))%Q
      by (rewrite inject_Z_opp; ring).
    apply Qopp_le_compat. apply froundPos_upper; lia.
Qed.

Lemma fround_le (z : Z) (q : Q) :
  - 2 ^ 53 <= z < 2 ^ 53 -> (q <= inject_Z z)%Q -> (fround q <= inject_Z z)%Q.
Proof.
  intros Hz H. destruct q as [n d].
  assert (H' : n <= z * Zpos d) by (unfold Qle in H; simpl in H; lia).
  unfold fround. cbn [Qnum Qden]. destruct n as [|a|a].
  - unfold Qle. cbn. lia.
  - eapply Qle_trans; [rewrite Qred_correct; apply Qle_refl|].
    apply froundPos_upper; lia.
  - eapply Qle_trans; [rewrite Qred_correct; apply Qle_refl|].
    setoid_replace (inject_Z z) with (- inject_Z (- z))%Q
      by (rewrite inject_Z_opp; ring).
    apply Qopp_le_compat. apply froundPos_lower; lia.
Qed.

Lemma Qred_inject_Z (k : Z) : Qred (inject_Z k) = inject_Z k.
Proof.
  unfold Qred, inject_Z.
  pose proof (Z.ggcd_gcd k 1) as G.
  pose proof (Z.ggcd_correct_divisors k 1) as D.
  destruct (Z.ggcd k 1) as [g [aa bb]]. simpl in *.
  rewrite Z.gcd_1_r in G. subst g. destruct D as [D1 D2].
  rewrite Z.mul_1_l in D1, D2. subst aa bb. reflexivity.
Qed.

Lemma Qred_fround (q : Q) : Qred (fround q) = fround q.
Proof.
  unfold fround. destruct (Qnum q); [reflexivity| |];
    apply Qred_complete, Qred_correct.
Qed.

Lemma fround_whole (q : Q) (k : Z) :
  - 2 ^ 53 < k < 2 ^ 53 -> (q == inject_Z k)%Q -> fround q = inject_Z k.
Proof.
  intros Hk H.
  rewrite <- Qred_fround, <- Qred_inject_Z. apply Qred_complete.
  apply Qle_antisym.
  - apply fround_le; [lia | rewrite H; apply Qle_refl].
  - apply fround_ge; [lia | rewrite H; apply Qle_refl].
Qed.

(** ** Sums of numbers *)

Lemma add_Num (p q r : Q) :
  add (Num p) (Num q) = Num r -> r = fround (p + q).
Proof.
  unfold add.
  destruct (Qle_bool (inject_Z (2 ^ 1024)) (fround (p + q)));
    [discriminate|].
  destruct (Qle_bool (fround (p + q)) (inject_Z (- 2 ^ 1024)));
    [discriminate|].
  intros H. injection H as <-. reflexivity.
Qed.

Lemma add_exact (p q : Q) (k : Z) :
  - 2 ^ 53 < k < 2 ^ 53 -> (p + q == inject_Z k)%Q ->
  add (Num p) (Num q) = Num (inject_Z k).
Proof.
  intros Hk H. unfold add. rewrite (fround_whole _ k Hk H).
  assert (B : 2 ^ 53 <= 2 ^ 1024) by (apply Z.pow_le_mono_r; lia).
  set (M := 2 ^ 1024) in *.
  destruct (Qle_bool (inject_Z M) (inject_Z k)) eqn:E1.
  { apply Qle_bool_iff in E1. rewrite <- Zle_Qle in E1. lia. }
  destruct (Qle_bool (inject_Z k) (inject_Z (- M))) eqn:E2.
  { apply Qle_bool_iff in E2. rewrite <- Zle_Qle in E2. lia. }
  reflexivity.
Qed.

Lemma add_ge (p q r : Q) (z : Z) :
  - 2 ^ 53 < z <= 2 ^ 53 -> add (Num p) (Num q) = Num r ->
  (inject_Z z <= p + q)%Q -> (inject_Z z <= r)%Q.
Proof.
  intros Hz H Hle. rewrite (add_Num _ _ _ H). now apply fround_ge.
Qed.

Lemma add_le (p q r : Q) (z : Z) :
  - 2 ^ 53 <= z < 2 ^ 53 -> add (Num p) (Num q) = Num r ->
  (p + q <= inject_Z z)%Q -> (r <= inject_Z z)%Q.
Proof.
  intros Hz H Hle. rewrite (add_Num _ _ _ H). now apply fround_le.
Qed.

Lemma add_finite (x y : number) (r : Q) :
  add x y = Num r -> exists p q, x = Num p /\ y = Num q.
Proof.
  destruct x as [| | |p], y as [| | |q]; simpl; try discriminate.
  intros _. eauto.
Qed.

(** ** Rounding towards zero *)

Lemma truncate_ge (z : Z) (q : Q) : (inject_Z z <= q)%Q -> z <= truncate q.
Proof.
  intros H. unfold truncate. destruct (Qle_bool 0 q).
  - rewrite <- (Qfloor_Z z). now apply Qfloor_resp_le.
  - rewrite Zle_Qle. eapply Qle_trans; [exact H | apply Qle_ceiling].
Qed.

Lemma truncate_le (z : Z) (q : Q) : (q <= inject_Z z)%Q -> truncate q <= z.
Proof.
  intros H. unfold truncate. destruct (Qle_bool 0 q).
  - rewrite Zle_Qle. eapply Qle_trans; [apply Qfloor_le | exact H].
  - rewrite <- (Qceiling_Z z). now apply Qceiling_resp_le.
Qed.

Lemma truncate_Z (z : Z) : truncate (inject_Z z) = z.
Proof.
  unfold truncate. destruct (Qle_bool 0 (inject_Z z)).
  - apply Qfloor_Z.
  - apply Qceiling_Z.
Qed.

Lemma isInteger_spec (q : Q) :
  isInteger q = true <-> (q == inject_Z (Qfloor q))%Q.
Proof. unfold isInteger. apply Qeq_bool_iff. Qed.


(** ** Dates *)

Lemma dayOfMonth_range (t : Z) : 1 <= dayOfMonth t <= 31.
Proof.
  unfold dayOfMonth; cbv zeta.
  Z.div_mod_to_equations; lia.
Qed.

Lemma inRange_spec (t : Z) :
  inRange t = true <-> - maxDay <= t <= maxDay.
Proof.
  unfold inRange. rewrite andb_true_iff, !Z.leb_le. tauto.
Qed.

Lemma newDate_Day (d : Date) (t : Z) :
  newDate d = Day t <-> d = Day t /\ inRange t = true.
Proof.
  destruct d as [|u]; simpl; [split; [discriminate | intros [H _]; discriminate]|].
  destruct (inRange u) eqn:E; split.
  - intros H. injection H as <-. tauto.
  - intros [H _]. exact H.
  - discriminate.
  - intros [H R]. injection H as ->. congruence.
Qed.

Lemma newDate_idem (d : Date) : newDate (newDate d) = newDate d.
Proof.
  destruct d as [|t]; simpl; [reflexivity|].
  destruct (inRange t) eqn:E; simpl; [now rewrite E | reflexivity].
Qed.

Lemma isValid_Day (d : Date) :
  isValid d = true <-> exists t, newDate d = Day t.
Proof.
  unfold isValid. destruct (newDate d) as [|t].
  - split; [discriminate | intros [t H]; discriminate].
  - split; [eauto | reflexivity].
Qed.

Lemma isValid_newDate (d : Date) : isValid (newDate d) = isValid d.
Proof. unfold isValid. now rewrite newDate_idem. Qed.

Lemma newDate_setDate (d : Date) (x : number) :
  newDate (setDate d x) = setDate d x.
Proof.
  destruct d as [|t]; [reflexivity|].
  destruct x; try reflexivity. cbn [setDate]. apply newDate_idem.
Qed.

Lemma newDate_addNights (d : Date) (x : number) :
  newDate (addNights d x) = addNights d x.
Proof. unfold addNights. apply newDate_setDate. Qed.

Lemma addNights_newDate (d : Date) (x : number) :
  addNights (newDate d) x = addNights d x.
Proof. unfold addNights. now rewrite newDate_idem. Qed.

(** What a valid result of [addNights] was computed from. *)
Lemma addNights_Day (d : Date) (x : number) (c : Z) :
  addNights d x = Day c ->
  exists t q r,
    newDate d = Day t /\ x = Num q
    /\ add (Num (inject_Z (dayOfMonth t))) (Num q) = Num r
    /\ c = t - dayOfMonth t + truncate r
    /\ inRange t = true /\ inRange c = true.
Proof.
  unfold addNights. intros H.
  destruct (newDate d) as [|t] eqn:Ed; [discriminate H|].
  apply newDate_Day in Ed. destruct Ed as [_ Rt].
  cbn [getDate setDate] in H.
  destruct (add (Num (inject_Z (dayOfMonth t))) x) as [| | |r] eqn:Ea;
    try discriminate H.
  destruct (add_finite _ _ _ Ea) as [p [q [_ ->]]].
  apply newDate_Day in H. destruct H as [H Rc]. injection H as H.
  exists t, q, r. repeat split; try assumption; try reflexivity. lia.
Qed.

Lemma addNights_ge (d : Date) (n : Q) (t c z : Z) :
  - 2 ^ 52 < z < 2 ^ 52 ->
  newDate d = Day t -> (inject_Z z <= n)%Q ->
  addNights d (Num n) = Day c -> t + z <= c.
Proof.
  intros Hz Hd Hn H.
  destruct (addNights_Day _ _ _ H) as [t' [q [r [Hd' [Hx [Ha [-> _]]]]]]].
  rewrite Hd in Hd'. injection Hd' as <-. injection Hx as <-.
  pose proof (dayOfMonth_range t) as R.
  assert (E52 : 2 ^ 52 = 4503599627370496) by reflexivity.
  assert (E53 : 2 ^ 53 = 9007199254740992) by reflexivity.
  assert (B : - 2 ^ 53 < dayOfMonth t + z <= 2 ^ 53) by lia.
  assert (inject_Z (dayOfMonth t + z) <= r)%Q.
  { apply (add_ge _ _ _ _ B Ha). rewrite inject_Z_plus. lra. }
  pose proof (truncate_ge _ _ H0). lia.
Qed.

Lemma addNights_le (d : Date) (n : Q) (t c z : Z) :
  - 2 ^ 52 < z < 2 ^ 52 ->
  newDate d = Day t -> (n <= inject_Z z)%Q ->
  addNights d (Num n) = Day c -> c <= t + z.
Proof.
  intros Hz Hd Hn H.
  destruct (addNights_Day _ _ _ H) as [t' [q [r [Hd' [Hx [Ha [-> _]]]]]]].
  rewrite Hd in Hd'. injection Hd' as <-. injection Hx as <-.
  pose proof (dayOfMonth_range t) as R.
  assert (E52 : 2 ^ 52 = 4503599627370496) by reflexivity.
  assert (E53 : 2 ^ 53 = 9007199254740992) by reflexivity.
  assert (B : - 2 ^ 53 <= dayOfMonth t + z < 2 ^ 53) by lia.
  assert (r <= inject_Z (dayOfMonth t + z))%Q.
  { apply (add_le _ _ _ _ B Ha). rewrite inject_Z_plus. lra. }
  pose proof (truncate_le _ _ H0). lia.
Qed.

(** A whole number of nights moves a valid date by that many days, or out of
    the range. *)
Lemma addNights_whole (d : Date) (n : Q) (t k : Z) :
  newDate d = Day t -> (n == inject_Z k)%Q ->
  addNights d (Num n) = newDate (Day (t + k)).
Proof.
  intros Hd Hn.
  pose proof (proj1 (newDate_Day _ _) Hd) as [_ Rt].
  apply inRange_spec in Rt. unfold maxDay in Rt.
  pose proof (dayOfMonth_range t) as R.
  assert (B : 2 ^ 53 = 9007199254740992) by reflexivity.
  unfold addNights. rewrite Hd. cbn [getDate setDate].
  assert (S : (inject_Z (dayOfMonth t) + n == inject_Z (dayOfMonth t + k))%Q)
    by (rewrite inject_Z_plus, Hn; reflexivity).
  destruct (Z_lt_le_dec (Z.abs (dayOfMonth t + k)) (2 ^ 53)) as [Small|Big].
  - rewrite (add_exact _ _ (dayOfMonth t + k)) by (try exact S; lia).
    rewrite truncate_Z. f_equal. f_equal. lia.
  - assert (Out : newDate (Day (t + k)) = InvalidDate).
    { simpl. replace (inRange (t + k)) with false; [reflexivity|].
      symmetry. apply not_true_is_false. rewrite inRange_spec.
      unfold maxDay. lia. }
    rewrite Out.
    destruct (add (Num (inject_Z (dayOfMonth t))) (Num n)) as [| | |r] eqn:Ea;
      try reflexivity.
    simpl.
    replace (inRange (t - dayOfMonth t + 1 + (truncate r - 1))) with false;
      [reflexivity|].
    symmetry. apply not_true_is_false. rewrite inRange_spec. unfold maxDay.
    destruct (Z_le_gt_dec 0 (dayOfMonth t + k)) as [P|P].
    + assert (inject_Z (2 ^ 53) <= r)%Q.
      { apply (add_ge _ _ _ (2 ^ 53) ltac:(lia) Ea). rewrite S, <- Zle_Qle. lia. }
      pose proof (truncate_ge _ _ H). lia.
    + assert (r <= inject_Z (- 2 ^ 53))%Q.
      { apply (add_le _ _ _ (- 2 ^ 53) ltac:(lia) Ea). rewrite S, <- Zle_Qle. lia. }
      pose proof (truncate_le _ _ H). lia.
Qed.

(** ** The handlers, step by step *)

Lemma bind_findMany {B : Type} (wh : Where) (k : list Prisma.booking -> Async B)
    (w : World) :
  bind (findMany wh) k w =
  if validWhere wh
  then k (filter (matches wh) (table w)) (issue FindMany w)
  else (Rejected, issue FindMany w).
Proof.
  unfold bind, findMany. destruct (validWhere wh); reflexivity.
Qed.

Lemma nonempty_filter {A : Type} (p : A -> bool) (l : list A) :
  (0 <? List.length (filter p l))%nat = existsb p l.
Proof.
  induction l as [|x l IH]; simpl; [reflexivity|].
  destruct (p x); simpl; [reflexivity | exact IH].
Qed.

Lemma existsb_ext_eq {A : Type} (p q : A -> bool) (l : list A) :
  (forall x, p x = q x) -> existsb p l = existsb q l.
Proof.
  intros H. induction l as [|x l IH]; simpl; [reflexivity|].
  now rewrite H, IH.
Qed.


Lemma scanUnitCandidates_filter (ci co : Date) (p : Prisma.booking -> bool)
    (t : list Prisma.booking) :
  scanUnitCandidates ci co (filter p t) =
  if existsb (fun r => p r && (ltDate ci (checkOut r) && ltDate (checkIn r) co)) t
  then mkOutcome false UNIT_OCCUPIED
  else mkOutcome true "OK".
Proof.
  induction t as [|r t IH]; simpl; [reflexivity|].
  destruct (p r); simpl; [|exact IH].
  fold (checkIn r). fold (checkOut r).
  destruct (ltDate ci (checkOut r) && ltDate (checkIn r) co); simpl;
    [reflexivity | exact IH].
Qed.

(** [isBookingPossible] settles as the cascade of checks says, leaves the
    table alone and issues only [findMany] queries. *)
Lemma isBookingPossible_run (c : Booking) (w : World) :
  isBookingPossible c w =
  (firstFailingCheck c (table w),
   mkWorld (table w)
           (calls w ++ repeat FindMany (queriesIssued c (table w)))).
Proof.
  unfold isBookingPossible, firstFailingCheck, queriesIssued.
  rewrite bind_findMany. unfold validWhere at 1.
  cbn [holds checkInDateEquals checkInDateLt andb].
  rewrite nonempty_filter.
  rewrite (existsb_ext_eq _ (fun r => (Prisma.guestName r =? guestName c)%string
                                      && (Prisma.unitID r =? unitID c)%string))
    by (intros r; unfold matches; cbn; now rewrite !andb_true_r).
  fold (sameGuestSameUnit c (table w)).
  destruct (sameGuestSameUnit c (table w)); [reflexivity|].
  rewrite bind_findMany. unfold validWhere at 1.
  cbn [holds checkInDateEquals checkInDateLt andb].
  rewrite nonempty_filter.
  rewrite (existsb_ext_eq _ (fun r => (Prisma.guestName r =? guestName c)%string))
    by (intros r; unfold matches; cbn; now rewrite !andb_true_r).
  cbn [table issue].
  fold (guestAlreadyBooked c (table w)).
  destruct (guestAlreadyBooked c (table w));
    [unfold ret, issue; cbn; now rewrite <- app_assoc|].
  rewrite bind_findMany. unfold validWhere at 1.
  cbn [holds checkInDateEquals checkInDateLt].
  rewrite andb_true_r. fold (candidateCheckIn c).
  destruct (isValid (candidateCheckIn c)) eqn:Vi; cbn [negb orb];
    [|unfold issue; cbn; now rewrite <- !app_assoc].
  rewrite nonempty_filter.
  rewrite (existsb_ext_eq _ (fun r => (Prisma.unitID r =? unitID c)%string
                     && eqDate (Prisma.checkInDate r) (candidateCheckIn c)))
    by (intros r; unfold matches; cbn; now rewrite !andb_true_r).
  cbn [table issue].
  fold (checkInCollision c (table w)).
  destruct (checkInCollision c (table w));
    [unfold ret, issue; cbn; now rewrite <- !app_assoc|].
  cbv zeta. rewrite bind_findMany. unfold validWhere at 1.
  cbn [holds checkInDateEquals checkInDateLt andb].
  fold (candidateCheckOut c).
  destruct (isValid (candidateCheckOut c)) eqn:Vo; cbn [negb];
    [|unfold issue; cbn; now rewrite <- !app_assoc].
  unfold ret. rewrite scanUnitCandidates_filter.
  cbn [table issue].
  rewrite (existsb_ext_eq _ (fun r => (Prisma.unitID r =? unitID c)%string
                    && ltDate (Prisma.checkInDate r) (candidateCheckOut c)
                    && candidateOverlaps c r))
    by (intros r; unfold matches, candidateOverlaps; cbn; now rewrite !andb_true_r).
  fold (intervalOverlap c (table w)).
  destruct (intervalOverlap c (table w)); unfold issue; cbn [table calls];
    now rewrite <- !app_assoc.
Qed.

Lemma firstFailingCheck_accepts (c : Booking) (t : list Prisma.booking)
    (o : BookingOutcome) :
  firstFailingCheck c t = Returned o -> result o = true ->
  o = mkOutcome true "OK"
  /\ sameGuestSameUnit c t = false /\ guestAlreadyBooked c t = false
  /\ checkInCollision c t = false /\ intervalOverlap c t = false
  /\ exists d q, candidateCheckIn c = Day d /\ numberOfNights c = Num q
                 /\ isValid (candidateCheckOut c) = true.
Proof.
  unfold firstFailingCheck.
  destruct (sameGuestSameUnit c t);
    [intros H; injection H as <-; discriminate|].
  destruct (guestAlreadyBooked c t);
    [intros H; injection H as <-; discriminate|].
  destruct (isValid (candidateCheckIn c)) eqn:Vi; cbn [negb]; [|discriminate].
  destruct (checkInCollision c t);
    [intros H; injection H as <-; discriminate|].
  destruct (isValid (candidateCheckOut c)) eqn:Vo; cbn [negb]; [|discriminate].
  destruct (intervalOverlap c t);
    [intros H; injection H as <-; discriminate|].
  intros H _. injection H as <-.
  repeat (split; [reflexivity|]).
  pose proof (proj1 (isValid_Day _) Vi) as [d Hd].
  pose proof (proj1 (isValid_Day _) Vo) as [e He].
  unfold candidateCheckIn in Hd. rewrite newDate_idem in Hd.
  unfold candidateCheckOut in He. rewrite newDate_addNights in He.
  destruct (addNights_Day _ _ _ He) as [_ [q [_ [_ [Hq _]]]]].
  exists d, q. split; [exact Hd|]. split; [exact Hq | reflexivity].
Qed.

Lemma firstFailingCheck_refuses (c : Booking) (t : list Prisma.booking)
    (o : BookingOutcome) :
  firstFailingCheck c t = Returned o -> result o = false ->
  o = mkOutcome false (reason o)
  /\ In (reason o) [GUEST_UNIT_DUPLICATE; GUEST_ALREADY_BOOKED; UNIT_OCCUPIED].
Proof.
  unfold firstFailingCheck.
  destruct (sameGuestSameUnit c t);
    [intros H; injection H as <-; simpl; tauto|].
  destruct (guestAlreadyBooked c t);
    [intros H; injection H as <-; simpl; tauto|].
  destruct (negb (isValid (candidateCheckIn c))); [discriminate|].
  destruct (checkInCollision c t);
    [intros H; injection H as <-; simpl; tauto|].
  destruct (negb (isValid (candidateCheckOut c))); [discriminate|].
  destruct (intervalOverlap c t);
    [intros H; injection H as <-; simpl; tauto|].
  intros H; injection H as <-. discriminate.
Qed.

(** The three ways [createBooking] ends. *)
Lemma createBooking_run (c : Booking) (w : World) :
  (firstFailingCheck c (table w) = Rejected
   /\ createBooking c w =
      (Rejected,
       mkWorld (table w)
         (calls w ++ repeat FindMany (queriesIssued c (table w)))))
  \/ (exists why,
        firstFailingCheck c (table w) = Returned (mkOutcome false why)
        /\ In why [GUEST_UNIT_DUPLICATE; GUEST_ALREADY_BOOKED; UNIT_OCCUPIED]
        /\ createBooking c w =
           (Returned (Json 400 (Text why)),
            mkWorld (table w)
              (calls w ++ repeat FindMany (queriesIssued c (table w)))))
  \/ (exists q,
        firstFailingCheck c (table w) = Returned (mkOutcome true "OK")
        /\ numberOfNights c = Num q
        /\ createBooking c w =
           (Returned (Json 200 (Saved (createdRow c q (table w)))),
            mkWorld (table w ++ [createdRow c q (table w)])
              (calls w ++ repeat FindMany 4 ++ [Create]))).
Proof.
  unfold createBooking, bind. rewrite isBookingPossible_run.
  destruct (firstFailingCheck c (table w)) as [o|] eqn:F; [|left; tauto].
  right. destruct (result o) eqn:R; cbn [negb].
  - right.
    destruct (firstFailingCheck_accepts c _ o F R)
      as [-> [K1 [K2 [K3 [_ [d [q [Hd [Hq Vo]]]]]]]]].
    exists q. split; [reflexivity|]. split; [exact Hq|].
    unfold create, ret. cbn [table calls].
    fold (candidateCheckIn c). rewrite Hq.
    assert (Hd' : newDate (candidateCheckIn c) = Day d)
      by (unfold candidateCheckIn in *; now rewrite newDate_idem).
    rewrite Hd'. unfold createdRow. rewrite Hd.
    unfold queriesIssued. rewrite K1, K2, K3.
    assert (Vi : isValid (candidateCheckIn c) = true)
      by (apply isValid_Day; eauto).
    rewrite Vi. cbn [negb orb]. now rewrite <- app_assoc.
  - left.
    destruct (firstFailingCheck_refuses c _ o F R) as [E Hin].
    exists (reason o). rewrite <- E. split; [reflexivity|].
    split; [exact Hin|]. reflexivity.
Qed.

Lemma scanConflictingBookings_filter (cur prop : Date)
    (p : Prisma.booking -> bool) (t : list Prisma.booking) :
  scanConflictingBookings cur prop (filter p t) =
  existsb (fun r => p r && (ltDate cur (checkOut r) && ltDate (checkIn r) prop)) t.
Proof.
  induction t as [|r t IH]; simpl; [reflexivity|].
  destruct (p r); simpl; [|exact IH].
  fold (checkIn r).
  replace (setDate (newDate (checkIn r))
             (add (getDate (checkIn r)) (Num (Prisma.numberOfNights r))))
    with (checkOut r)
    by (unfold checkOut, addNights, checkIn; now rewrite !newDate_idem).
  destruct (ltDate cur (checkOut r) && ltDate (checkIn r) prop); simpl;
    [reflexivity | exact IH].
Qed.

Lemma currentCheckout_checkOut (b : Prisma.booking) :
  currentCheckout b = checkOut b.
Proof.
  unfold currentCheckout, checkOut, addNights, checkIn.
  now rewrite !newDate_idem.
Qed.

Lemma find_id (i : Z) (t : list Prisma.booking) (b : Prisma.booking) :
  find (fun r => Prisma.id r =? i) t = Some b -> In b t /\ Prisma.id b = i.
Proof.
  intros H. apply find_some in H. destruct H as [Hin Hid].
  split; [exact Hin | now apply Z.eqb_eq].
Qed.

Lemma guard_invalid (x : number) :
  JS.not_ x || JS.le0 x = true <-> invalidExtraNights x.
Proof.
  destruct x as [| | |q]; simpl; try tauto.
  - split; [discriminate | tauto].
  - rewrite orb_true_iff, Qeq_bool_iff, Qle_bool_iff.
    split; intros [H|H]; try (left; lra); try (right; lra).
    destruct (Qeq_dec q 0) as [E|E]; [left; exact E | right; lra].
Qed.

Lemma extendBooking_invalid (i : Z) (x : number) (w : World) :
  invalidExtraNights x ->
  extendBooking i x w = (Returned (Json 400 (Message INVALID_EXTRA_NIGHTS)), w).
Proof.
  intros H. apply guard_invalid in H.
  unfold extendBooking. rewrite H. reflexivity.
Qed.

(** [extendBooking] past the guard. *)
Lemma extendBooking_valid (i : Z) (x : number) (w : World) :
  ~ invalidExtraNights x ->
  extendBooking i x w =
  match find (fun r => Prisma.id r =? i) (table w) with
  | None => (Returned (Json 404 (Message BOOKING_NOT_FOUND)),
             mkWorld (table w) (calls w ++ [FindUnique]))
  | Some b =>
      if negb (isValid (proposedCheckout b x))
      then (Rejected, mkWorld (table w) (calls w ++ [FindUnique; FindMany]))
      else if extensionConflictb b x (table w)
      then (Returned (Json 409 (Message EXTENSION_CONFLICT)),
            mkWorld (table w) (calls w ++ [FindUnique; FindMany]))
      else
        match add (Num (Prisma.numberOfNights b)) x with
        | Num s =>
            (Returned (Json 200 (Saved (setNights s b))),
             mkWorld (map (fun r => if Prisma.id r =? i
                                    then setNights s r else r) (table w))
                     (calls w ++ [FindUnique; FindMany; Update]))
        | _ => (Rejected,
                mkWorld (table w) (calls w ++ [FindUnique; FindMany; Update]))
        end
  end.
Proof.
  intros Hx.
  assert (G : JS.not_ x || JS.le0 x = false).
  { apply not_true_is_false. now rewrite guard_invalid. }
  unfold extendBooking. rewrite G.
  unfold bind at 1. unfold findUnique at 1. cbn [table issue calls].
  destruct (find (fun r => Prisma.id r =? i) (table w)) as [b|] eqn:F;
    [|reflexivity].
  destruct (find_id _ _ _ F) as [Hin Hid].
  rewrite bind_findMany. unfold validWhere at 1.
  cbn [holds checkInDateEquals checkInDateLt andb].
  fold (checkIn b). fold (currentCheckout b). fold (proposedCheckout b x).
  destruct (isValid (proposedCheckout b x)) eqn:V; cbn [negb];
    [|unfold issue; cbn [table calls]; now rewrite <- app_assoc].
  rewrite scanConflictingBookings_filter. cbn [table issue].
  rewrite (existsb_ext_eq _ (fun other =>
             (Prisma.unitID other =? Prisma.unitID b)%string
             && negb (Prisma.id other =? Prisma.id b)
             && ltDate (Prisma.checkInDate other) (proposedCheckout b x)
             && (ltDate (currentCheckout b) (checkOut other)
                 && ltDate (checkIn other) (proposedCheckout b x))))
    by (intros r; unfold matches; cbn; now rewrite !andb_true_r).
  fold (extensionConflictb b x (table w)).
  destruct (extensionConflictb b x (table w));
    [unfold ret, issue; cbn [table calls];
     rewrite <- ?app_assoc; reflexivity|].
  unfold bind, update, issue. cbn [table calls]. rewrite Hid, F.
  destruct (add (Num (Prisma.numberOfNights b)) x) as [| | |s];
    unfold ret, issue; cbn [table calls]; rewrite <- ?app_assoc;
    reflexivity.
Qed.

(** ** Check ordering *)



Lemma sameGuestSameUnit_spec (c : Booking) (t : list Prisma.booking) :
  sameGuestSameUnit c t = true <->
  exists r, In r t /\ Prisma.guestName r = guestName c
            /\ Prisma.unitID r = unitID c.
Proof.
  unfold sameGuestSameUnit. rewrite existsb_exists.
  split; intros [r [Hin H]]; exists r; split; try exact Hin.
  - apply andb_true_iff in H. destruct H as [Hg Hu].
    split; now apply String.eqb_eq.
  - destruct H as [Hg Hu]. apply andb_true_iff.
    split; now apply String.eqb_eq.
Qed.

Lemma guestAlreadyBooked_spec (c : Booking) (t : list Prisma.booking) :
  guestAlreadyBooked c t = true <->
  exists r, In r t /\ Prisma.guestName r = guestName c.
Proof.
  unfold guestAlreadyBooked. rewrite existsb_exists.
  split; intros [r [Hin H]]; exists r; split; try exact Hin;
    now apply String.eqb_eq.
Qed.

(** The response of [createBooking], from the cascade of checks. *)
Lemma createBooking_response (c : Booking) (w : World) :
  response (createBooking c w) =
  match firstFailingCheck c (table w) with
  | Rejected => Thrown
  | Returned o =>
      if result o
      then match numberOfNights c with
           | Num q => Json 200 (Saved (createdRow c q (table w)))
           | _ => Thrown
           end
      else Json 400 (Text (reason o))
  end.
Proof.
  destruct (createBooking_run c w) as [[E R]|[[why [E [_ R]]]|[q [E [Hq R]]]]];
    rewrite E, R; cbn [result reason]; try rewrite Hq; reflexivity.
Qed.

Lemma createBooking_table (c : Booking) (w : World) :
  table (after (createBooking c w)) =
  match firstFailingCheck c (table w), numberOfNights c with
  | Returned o, Num q =>
      if result o then table w ++ [createdRow c q (table w)] else table w
  | _, _ => table w
  end.
Proof.
  destruct (createBooking_run c w) as [[E R]|[[why [E [_ R]]]|[q [E [Hq R]]]]];
    rewrite E, R; cbn [result]; try rewrite Hq; try reflexivity.
  now destruct (numberOfNights c).
Qed.

(** C5, as stated, fails: GuestA asking for unit 1 a second time is told
    GUEST_UNIT_DUPLICATE. *)
Lemma C5_guest_unit_duplicate_is_returned :
  settled (isBookingPossible GUEST_A_UNIT_1 worldA)
    = Returned (mkOutcome false GUEST_UNIT_DUPLICATE)
  /\ response (createBooking GUEST_A_UNIT_1 worldA)
    = Json 400 (Text GUEST_UNIT_DUPLICATE).
Proof. split; vm_compute; reflexivity. Qed.

(** C5, amended: check 1 runs before check 2, so GUEST_UNIT_DUPLICATE is the
    reason exactly when some booking has the candidate's guest and unit, and
    GUEST_ALREADY_BOOKED exactly when the guest holds a booking but none on
    the candidate's unit; [createBooking] answers 400 with that reason. *)
Theorem C5_guest_reasons (c : Booking) (w : World) :
  ((exists o, settled (isBookingPossible c w) = Returned o
              /\ reason o = GUEST_UNIT_DUPLICATE) <->
   exists r, In r (table w) /\ Prisma.guestName r = guestName c
             /\ Prisma.unitID r = unitID c)
  /\ ((exists o, settled (isBookingPossible c w) = Returned o
                 /\ reason o = GUEST_ALREADY_BOOKED) <->
      (exists r, In r (table w) /\ Prisma.guestName r = guestName c)
      /\ ~ (exists r, In r (table w) /\ Prisma.guestName r = guestName c
                      /\ Prisma.unitID r = unitID c))
  /\ (response (createBooking c w) = Json 400 (Text GUEST_UNIT_DUPLICATE) <->
      exists r, In r (table w) /\ Prisma.guestName r = guestName c
                /\ Prisma.unitID r = unitID c)
  /\ (response (createBooking c w) = Json 400 (Text GUEST_ALREADY_BOOKED) <->
      (exists r, In r (table w) /\ Prisma.guestName r = guestName c)
      /\ ~ (exists r, In r (table w) /\ Prisma.guestName r = guestName c
                      /\ Prisma.unitID r = unitID c)).
Proof.
  unfold settled. rewrite isBookingPossible_run. cbn [fst].
  rewrite <- sameGuestSameUnit_spec, <- guestAlreadyBooked_spec.
  rewrite createBooking_response. unfold firstFailingCheck.
  destruct (sameGuestSameUnit c (table w)); [settle_reasons|].
  destruct (guestAlreadyBooked c (table w)); [settle_reasons|].
  destruct (negb (isValid (candidateCheckIn c))); [settle_reasons|].
  destruct (checkInCollision c (table w)); [settle_reasons|].
  destruct (negb (isValid (candidateCheckOut c))); [settle_reasons|].
  destruct (intervalOverlap c (table w)); [settle_reasons|].
  cbn [result]. destruct (numberOfNights c); settle_reasons.
Qed.

(** ** Check 3 against check 4 *)

Lemma isBookingPossible_without_check3_run (c : Booking) (w : World) :
  settled (isBookingPossible_without_check3 c w) =
  if sameGuestSameUnit c (table w)
  then Returned (mkOutcome false GUEST_UNIT_DUPLICATE)
  else if guestAlreadyBooked c (table w)
  then Returned (mkOutcome false GUEST_ALREADY_BOOKED)
  else if negb (isValid (candidateCheckOut c)) then Rejected
  else if intervalOverlap c (table w)
  then Returned (mkOutcome false UNIT_OCCUPIED)
  else Returned (mkOutcome true "OK").
Proof.
  unfold isBookingPossible_without_check3, settled.
  rewrite bind_findMany. unfold validWhere at 1.
  cbn [holds checkInDateEquals checkInDateLt andb].
  rewrite nonempty_filter.
  rewrite (existsb_ext_eq _ (fun r => (Prisma.guestName r =? guestName c)%string
                                      && (Prisma.unitID r =? unitID c)%string))
    by (intros r; unfold matches; cbn; now rewrite !andb_true_r).
  fold (sameGuestSameUnit c (table w)).
  destruct (sameGuestSameUnit c (table w)); [reflexivity|].
  rewrite bind_findMany. unfold validWhere at 1.
  cbn [holds checkInDateEquals checkInDateLt andb].
  rewrite nonempty_filter.
  rewrite (existsb_ext_eq _ (fun r => (Prisma.guestName r =? guestName c)%string))
    by (intros r; unfold matches; cbn; now rewrite !andb_true_r).
  cbn [table issue].
  fold (guestAlreadyBooked c (table w)).
  destruct (guestAlreadyBooked c (table w)); [reflexivity|].
  cbv zeta. rewrite bind_findMany. unfold validWhere at 1.
  cbn [holds checkInDateEquals checkInDateLt andb].
  fold (candidateCheckIn c). fold (candidateCheckOut c).
  destruct (isValid (candidateCheckOut c)); cbn [negb]; [|reflexivity].
  unfold ret. rewrite scanUnitCandidates_filter. cbn [table issue fst].
  rewrite (existsb_ext_eq _ (fun r => (Prisma.unitID r =? unitID c)%string
                    && ltDate (Prisma.checkInDate r) (candidateCheckOut c)
                    && candidateOverlaps c r))
    by (intros r; unfold matches, candidateOverlaps; cbn; now rewrite !andb_true_r).
  fold (intervalOverlap c (table w)).
  now destruct (intervalOverlap c (table w)).
Qed.

Lemma eqDate_spec (a b : Date) :
  eqDate a b = true <-> exists t, a = Day t /\ b = Day t.
Proof.
  destruct a as [|x], b as [|y]; simpl;
    try (split; [discriminate | intros [t [H1 H2]]; discriminate]).
  rewrite Z.eqb_eq. split.
  - intros ->. eauto.
  - intros [t [H1 H2]]. congruence.
Qed.

Lemma ltDate_spec (a b : Date) :
  ltDate a b = true <-> exists x y, a = Day x /\ b = Day y /\ x < y.
Proof.
  destruct a as [|x], b as [|y]; simpl;
    try (split; [discriminate | intros [u [v [H1 [H2 _]]]]; discriminate]).
  rewrite Z.ltb_lt. split.
  - intros H. exists x, y. tauto.
  - intros [u [v [H1 [H2 H3]]]]. congruence.
Qed.

Lemma ltDate_irrefl (a : Date) : ltDate a a = false.
Proof. destruct a; simpl; [reflexivity | apply Z.ltb_irrefl]. Qed.

(** A stay of at least one night ends after it starts. *)
Lemma stay_ends_later (d : Date) (n : Q) (t c : Z) :
  newDate d = Day t -> (1 <= n)%Q -> addNights d (Num n) = Day c -> t < c.
Proof.
  intros Hd Hn H.
  assert (t + 1 <= c); [|lia].
  apply (addNights_ge d n t c 1); try assumption.
  assert (E52 : 2 ^ 52 = 4503599627370496) by reflexivity. lia.
Qed.

(** A stay of no negative length does not end before it starts. *)
Lemma stay_ends_no_earlier (d : Date) (n : Q) (t c : Z) :
  newDate d = Day t -> (0 <= n)%Q -> addNights d (Num n) = Day c -> t <= c.
Proof.
  intros Hd Hn H.
  assert (t + 0 <= c); [|lia].
  apply (addNights_ge d n t c 0); try assumption.
  assert (E52 : 2 ^ 52 = 4503599627370496) by reflexivity. lia.
Qed.

Lemma checkOut_valid (r : Prisma.booking) :
  isValid (checkOut r) = true ->
  exists t c, Prisma.checkInDate r = Day t /\ checkIn r = Day t
              /\ checkOut r = Day c.
Proof.
  intros V. apply isValid_Day in V. destruct V as [c Hc].
  unfold checkOut in *. rewrite newDate_addNights in Hc.
  destruct (addNights_Day _ _ _ Hc) as [t [_ [_ [Ht _]]]].
  unfold checkIn in *. rewrite newDate_idem in Ht.
  pose proof (proj1 (newDate_Day _ _) Ht) as [E _].
  exists t, c. repeat split; assumption.
Qed.

Lemma collision_overlaps (c : Booking) (n : Q) (t : list Prisma.booking) :
  nightsAtLeastOne t -> validStays t ->
  numberOfNights c = Num n -> (1 <= n)%Q ->
  isValid (candidateCheckOut c) = true ->
  checkInCollision c t = true -> intervalOverlap c t = true.
Proof.
  intros Ht Hv Hn H1 Vo H.
  unfold checkInCollision in H. apply existsb_exists in H.
  destruct H as [r [Hin H]]. apply andb_true_iff in H. destruct H as [Hu Hd].
  apply eqDate_spec in Hd. destruct Hd as [d [Hr Hc]].
  unfold nightsAtLeastOne in Ht. rewrite Forall_forall in Ht.
  unfold validStays in Hv. rewrite Forall_forall in Hv.
  destruct (checkOut_valid r (Hv r Hin)) as [tr [co [Er [Ei Eo]]]].
  assert (tr = d) by congruence. subst tr.
  assert (d < co).
  { apply (stay_ends_later (checkIn r) (Prisma.numberOfNights r)).
    - rewrite Ei. rewrite <- Ei. unfold checkIn. apply newDate_idem.
    - apply Ht, Hin.
    - exact Eo. }
  apply isValid_Day in Vo. destruct Vo as [e He].
  unfold candidateCheckOut in He. rewrite newDate_addNights, Hn in He.
  assert (d < e).
  { apply (stay_ends_later (candidateCheckIn c) n); try assumption.
    unfold candidateCheckIn in *. now rewrite newDate_idem. }
  unfold intervalOverlap. apply existsb_exists. exists r. split; [exact Hin|].
  unfold candidateOverlaps, candidateCheckOut. rewrite Hu, Hn, He, Hc, Eo, Ei, Er.
  simpl. repeat (apply andb_true_iff; split); apply Z.ltb_lt; lia.
Qed.

(** C6, as stated, fails: for a stay of a thousand million nights from the
    day GuestA arrives, the full sequence answers UNIT_OCCUPIED at check 3,
    before any checkout is computed; without check 3 the last query is handed
    an invalid date and is rejected. *)
Lemma C6_endless_stay_needs_check3 :
  nightsAtLeastOne (table worldA)
  /\ numberOfNights endlessStay = Num (inject_Z (10 ^ 9))
  /\ (1 <= inject_Z (10 ^ 9))%Q
  /\ settled (isBookingPossible endlessStay worldA)
     = Returned (mkOutcome false UNIT_OCCUPIED)
  /\ settled (isBookingPossible_without_check3 endlessStay worldA) = Rejected.
Proof.
  split.
  { unfold nightsAtLeastOne. change (table worldA) with [rowA].
    repeat constructor. discriminate. }
  split; [reflexivity|]. split; [discriminate|].
  split; vm_compute; reflexivity.
Qed.

(** The stored stays have to be valid too: with a booking whose five nights
    run past the last day a [Date] can hold, a candidate for the same
    check-in day is turned away by check 3 and let through without it. *)
Remark invalid_stay_needs_check3 :
  let w := mkWorld [mkRow 1 "GuestA" "1" (Day (maxDay - 2)) 5] [] in
  let c := mkBooking "GuestB" "1" (Day (maxDay - 2)) (Num 1) in
  nightsAtLeastOne (table w)
  /\ isValid (candidateCheckOut c) = true
  /\ settled (isBookingPossible c w)
     = Returned (mkOutcome false UNIT_OCCUPIED)
  /\ settled (isBookingPossible_without_check3 c w)
     = Returned (mkOutcome true "OK").
Proof.
  cbv zeta. split.
  { unfold nightsAtLeastOne. cbn [table]. repeat constructor. discriminate. }
  split; [vm_compute; reflexivity|].
  split; vm_compute; reflexivity.
Qed.

(** C6, amended: when every stored booking and the candidate last at least
    one night and have a checkout that is a valid date,
    [isBookingPossible] without its check 3 returns the same outcome, with
    the same reason, as the full sequence of four checks. *)
Theorem C6_check3_redundant (c : Booking) (n : Q) (w : World) :
  nightsAtLeastOne (table w) -> validStays (table w) ->
  numberOfNights c = Num n -> (1 <= n)%Q ->
  isValid (candidateCheckOut c) = true ->
  settled (isBookingPossible_without_check3 c w)
    = settled (isBookingPossible c w).
Proof.
  intros Ht Hv Hn H1 Vo.
  rewrite isBookingPossible_without_check3_run.
  unfold settled. rewrite isBookingPossible_run. cbn [fst].
  unfold firstFailingCheck.
  destruct (sameGuestSameUnit c (table w)); [reflexivity|].
  destruct (guestAlreadyBooked c (table w)); [reflexivity|].
  assert (Vi : isValid (candidateCheckIn c) = true).
  { pose proof (proj1 (isValid_Day _) Vo) as [e He].
    unfold candidateCheckOut in He. rewrite newDate_addNights in He.
    destruct (addNights_Day _ _ _ He) as [t [_ [_ [Hd _]]]].
    apply isValid_Day. now exists t. }
  rewrite Vi, Vo. cbn [negb].
  destruct (checkInCollision c (table w)) eqn:E3; [|reflexivity].
  now rewrite (collision_overlaps c n (table w) Ht Hv Hn H1 Vo E3).
Qed.

Lemma C6_witness :
  settled (isBookingPossible_without_check3 GUEST_B_UNIT_1 worldA)
    = Returned (mkOutcome false UNIT_OCCUPIED)
  /\ settled (isBookingPossible_without_check3 GUEST_B_UNIT_1 worldA)
    = settled (isBookingPossible GUEST_B_UNIT_1 worldA).
Proof.
  split; [vm_compute; reflexivity|].
  apply (C6_check3_redundant GUEST_B_UNIT_1 5 worldA).
  - unfold nightsAtLeastOne. change (table worldA) with [rowA].
    repeat constructor; discriminate.
  - unfold validStays. change (table worldA) with [rowA].
    constructor; [vm_compute; reflexivity | constructor].
  - reflexivity.
  - discriminate.
  - vm_compute. reflexivity.
Defined.

(** ** Validation of the extra nights *)

(** C8: the answer is INVALID_EXTRA_NIGHTS exactly when [extraNights] is not
    a number, zero or negative; on that path no call reaches the table and
    the state is unchanged, while a valid count always goes on to the
    look-up of the booking. *)
Theorem C8_extra_nights_validation (i : Z) (x : number) (w : World) :
  (response (extendBooking i x w) = Json 400 (Message INVALID_EXTRA_NIGHTS)
   <-> invalidExtraNights x)
  /\ (invalidExtraNights x -> after (extendBooking i x w) = w)
  /\ (~ invalidExtraNights x ->
      exists rest, calls (after (extendBooking i x w))
                   = calls w ++ FindUnique :: rest).
Proof.
  assert (D : invalidExtraNights x \/ ~ invalidExtraNights x).
  { destruct (JS.not_ x || JS.le0 x) eqn:G.
    - left. now apply guard_invalid.
    - right. rewrite <- guard_invalid. congruence. }
  split; [split|split].
  - intros H. destruct D as [V|V]; [exact V|].
    exfalso. rewrite (extendBooking_valid i x w V) in H.
    destruct (find _ (table w)) as [b|]; [|discriminate H].
    destruct (negb (isValid (proposedCheckout b x))); [discriminate H|].
    destruct (extensionConflictb b x (table w)); [discriminate H|].
    destruct (add (Num (Prisma.numberOfNights b)) x); discriminate H.
  - intros H. now rewrite extendBooking_invalid.
  - intros H. now rewrite extendBooking_invalid.
  - intros H. rewrite (extendBooking_valid i x w H).
    destruct (find _ (table w)) as [b|]; [|exists []; reflexivity].
    destruct (negb (isValid (proposedCheckout b x)));
      [exists [FindMany]; reflexivity|].
    destruct (extensionConflictb b x (table w));
      [exists [FindMany]; reflexivity|].
    destruct (add (Num (Prisma.numberOfNights b)) x);
      exists [FindMany; Update]; reflexivity.
Qed.

Lemma C8_witness :
  invalidExtraNights (Num 0)
  /\ after (extendBooking 1 (Num 0) worldA) = worldA.
Proof.
  assert (H : invalidExtraNights (Num 0)) by (left; reflexivity).
  split; [exact H|].
  exact (proj1 (proj2 (C8_extra_nights_validation 1 (Num 0) worldA)) H).
Defined.

(** ** Fractional extra nights *)

(** C10: an extension by one night and a half passes the validation and,
    with no other booking on the unit, is written to the table: the table
    held GuestA's booking of five nights, a whole number, and after the
    request it holds that booking with six nights and a half, which is not a
    whole number; the handler has looked the booking up, queried the unit
    and issued one update. *)
Theorem C10_fractional_extra_nights_accepted :
  exists e : Q,
    (0 < e)%Q /\ isInteger e = false
    /\ ~ invalidExtraNights (Num e)
    /\ table worldA = [rowA]
    /\ isInteger (Prisma.numberOfNights rowA) = true
    /\ extendBooking 1 (Num e) worldA
       = (Returned (Json 200 (Saved (setNights (13 # 2) rowA))),
          mkWorld [setNights (13 # 2) rowA]
                  (calls worldA ++ [FindUnique; FindMany; Update]))
    /\ isInteger (Prisma.numberOfNights (setNights (13 # 2) rowA)) = false.
Proof.
  exists (3 # 2)%Q.
  split; [reflexivity|]. split; [vm_compute; reflexivity|].
  split; [simpl; intros [H|H]; discriminate H|].
  split; [vm_compute; reflexivity|].
  split; [vm_compute; reflexivity|].
  split; vm_compute; reflexivity.
Qed.

(** ** The extension window *)

Lemma table_worldA : table worldA = [rowA].
Proof. vm_compute. reflexivity. Qed.



Lemma extensionConflictb_spec (b : Prisma.booking) (x : number)
    (t : list Prisma.booking) :
  extensionConflictb b x t = true <-> extensionConflict b x t.
Proof.
  unfold extensionConflictb, extensionConflict. rewrite existsb_exists.
  split; intros [o [Hin H]]; exists o; split; try exact Hin.
  - rewrite !andb_true_iff, negb_true_iff in H.
    destruct H as [[[Hu Hi] Hf] [Hc Hp]].
    apply String.eqb_eq in Hu. apply Z.eqb_neq in Hi. tauto.
  - destruct H as [Hu [Hi [Hf [Hc Hp]]]].
    rewrite !andb_true_iff, negb_true_iff.
    apply String.eqb_eq in Hu. apply Z.eqb_neq in Hi. tauto.
Qed.

Lemma invalidExtraNights_dec (x : number) :
  invalidExtraNights x \/ ~ invalidExtraNights x.
Proof.
  destruct (JS.not_ x || JS.le0 x) eqn:G.
  - left. now apply guard_invalid.
  - right. rewrite <- guard_invalid. congruence.
Qed.

Lemma addNights_fixed (d : Date) (x : number) :
  newDate d = d -> setDate (newDate d) (add (getDate d) x) = addNights d x.
Proof. intros H. unfold addNights. cbv zeta. now rewrite H. Qed.

(** The proposed checkout is the current checkout moved by [addNights]. *)
Lemma proposedCheckout_addNights (b : Prisma.booking) (x : number) :
  proposedCheckout b x = addNights (checkOut b) x.
Proof.
  unfold proposedCheckout. rewrite currentCheckout_checkOut.
  apply addNights_fixed. unfold checkOut. apply newDate_addNights.
Qed.

Lemma checkIn_Day (r : Prisma.booking) (t : Z) :
  checkIn r = Day t <-> Prisma.checkInDate r = Day t /\ inRange t = true.
Proof. unfold checkIn. apply newDate_Day. Qed.

Lemma isInteger_Z (q : Q) :
  isInteger q = true -> exists k, (q == inject_Z k)%Q.
Proof. intros H. exists (Qfloor q). now apply isInteger_spec. Qed.

(** For a whole number of nights the checkout is the check-in plus the
    nights, when that day is a date. *)
Lemma checkOut_whole (r : Prisma.booking) (t k : Z) :
  checkIn r = Day t -> (Prisma.numberOfNights r == inject_Z k)%Q ->
  checkOut r = newDate (Day (t + k)).
Proof.
  intros Ht Hk. unfold checkOut. apply addNights_whole; [|exact Hk].
  unfold checkIn in *. now rewrite newDate_idem.
Qed.

Lemma checkOut_whole_Day (r : Prisma.booking) (k c : Z) :
  (Prisma.numberOfNights r == inject_Z k)%Q -> checkOut r = Day c ->
  exists t, checkIn r = Day t /\ Prisma.checkInDate r = Day t
            /\ c = t + k /\ inRange t = true /\ inRange (t + k) = true.
Proof.
  intros Hk Hc.
  assert (V : isValid (checkOut r) = true).
  { apply isValid_Day. exists c. rewrite <- Hc. unfold checkOut.
    apply newDate_addNights. }
  destruct (checkOut_valid r V) as [t [c' [Hd [Hi Ho]]]].
  exists t. split; [exact Hi|]. split; [exact Hd|].
  rewrite (checkOut_whole r t k Hi Hk) in Hc.
  apply newDate_Day in Hc. destruct Hc as [E R]. injection E as E.
  apply checkIn_Day in Hi. destruct Hi as [_ Rt].
  subst c. tauto.
Qed.


(** A valid proposed checkout, for whole numbers of nights. *)
Lemma extension_whole (b : Prisma.booking) (e : Q) (kb ke : Z) :
  (Prisma.numberOfNights b == inject_Z kb)%Q -> (e == inject_Z ke)%Q ->
  isValid (proposedCheckout b (Num e)) = true ->
  exists tb, Prisma.checkInDate b = Day tb /\ checkIn b = Day tb
    /\ checkOut b = Day (tb + kb)
    /\ proposedCheckout b (Num e) = Day (tb + kb + ke)
    /\ inRange tb = true /\ inRange (tb + kb) = true
    /\ inRange (tb + kb + ke) = true.
Proof.
  intros Hk He V.
  apply isValid_Day in V. destruct V as [p Hp].
  rewrite proposedCheckout_addNights in Hp |- *.
  rewrite newDate_addNights in Hp.
  destruct (addNights_Day _ _ _ Hp) as [c [_ [_ [Hc _]]]].
  apply newDate_Day in Hc. destruct Hc as [Hc _].
  destruct (checkOut_whole_Day b kb c Hk Hc) as [tb [Hi [Hd [-> [Rt Rc]]]]].
  exists tb. split; [exact Hd|]. split; [exact Hi|]. split; [exact Hc|].
  assert (Ec : newDate (checkOut b) = Day (tb + kb))
    by (apply newDate_Day; tauto).
  rewrite (addNights_whole _ _ _ ke Ec He) in Hp |- *.
  apply newDate_Day in Hp. destruct Hp as [E Rp]. injection E as <-.
  split; [apply newDate_Day; tauto | tauto].
Qed.

Lemma inRange_bounds (a b : Z) :
  inRange a = true -> inRange b = true -> - 2 ^ 53 < b - a < 2 ^ 53.
Proof.
  rewrite !inRange_spec. unfold maxDay.
  assert (E53 : 2 ^ 53 = 9007199254740992) by reflexivity. lia.
Qed.

(** The sum an accepted extension stores, for whole numbers of nights. *)
Lemma extension_whole_sum (b : Prisma.booking) (e : Q) (kb ke : Z) :
  (Prisma.numberOfNights b == inject_Z kb)%Q -> (e == inject_Z ke)%Q ->
  isValid (proposedCheckout b (Num e)) = true ->
  add (Num (Prisma.numberOfNights b)) (Num e) = Num (inject_Z (kb + ke)).
Proof.
  intros Hk He V.
  destruct (extension_whole b e kb ke Hk He V)
    as [tb [_ [_ [_ [_ [Rt [_ Rp]]]]]]].
  apply add_exact.
  - pose proof (inRange_bounds _ _ Rt Rp). lia.
  - rewrite Hk, He. now rewrite inject_Z_plus.
Qed.

Lemma uniqueIds_same (t : list Prisma.booking) (a b : Prisma.booking) :
  uniqueIds t -> In a t -> In b t -> Prisma.id a = Prisma.id b -> a = b.
Proof.
  unfold uniqueIds. induction t as [|r t IH]; simpl; [tauto|].
  intros N Ha Hb E. inversion N as [|? ? Hr Nt]; subst.
  destruct Ha as [Ha|Ha], Hb as [Hb|Hb]; subst.
  - reflexivity.
  - elim Hr. rewrite E. now apply in_map.
  - elim Hr. rewrite <- E. now apply in_map.
  - now apply IH.
Qed.

(** What an accepted extension has gone through. *)
Lemma extendBooking_accepted (i : Z) (x : number) (w : World)
    (u : Prisma.booking) :
  response (extendBooking i x w) = Json 200 (Saved u) ->
  exists b e s, x = Num e /\ (0 < e)%Q
    /\ find (fun r => Prisma.id r =? i) (table w) = Some b
    /\ isValid (proposedCheckout b x) = true
    /\ extensionConflictb b x (table w) = false
    /\ add (Num (Prisma.numberOfNights b)) (Num e) = Num s
    /\ u = setNights s b
    /\ extendBooking i x w
       = (Returned (Json 200 (Saved u)),
          mkWorld (map (fun r => if Prisma.id r =? i
                                 then setNights s r else r) (table w))
                  (calls w ++ [FindUnique; FindMany; Update])).
Proof.
  intros H.
  destruct (invalidExtraNights_dec x) as [V|V];
    [rewrite (extendBooking_invalid i x w V) in H; discriminate H|].
  rewrite (extendBooking_valid i x w V) in H |- *.
  destruct (find _ (table w)) as [b|] eqn:F; [|discriminate H].
  destruct (isValid (proposedCheckout b x)) eqn:P; cbn [negb] in *;
    [|discriminate H].
  destruct (extensionConflictb b x (table w)) eqn:C; [discriminate H|].
  destruct (add (Num (Prisma.numberOfNights b)) x) as [| | |s] eqn:A;
    try discriminate H.
  destruct (add_finite _ _ _ A) as [p [e [_ ->]]].
  unfold response in H. cbn [fst] in H. injection H as <-.
  exists b, e, s. split; [reflexivity|]. split.
  - simpl in V. destruct (Qlt_le_dec 0 e) as [L|L]; [exact L|].
    elim V. destruct (Qeq_dec e 0) as [E|E]; [now left | right; lra].
  - repeat (split; [first [reflexivity | assumption]|]). reflexivity.
Qed.





(** The rounding of the double-precision sum shows in the decision: an
    extension by the largest double below one moves the proposed checkout a
    whole day, and is refused. *)
Remark almost_one_night_is_a_night :
  response (extendBooking 1 (Num (decimal 9999999999999999 (-16))) worldAC)
    = Json 409 (Message EXTENSION_CONFLICT).
Proof. vm_compute. reflexivity. Qed.

(** ** The effect of an accepted extension *)

Lemma proposedCheckout_valid (b : Prisma.booking) (x : number) :
  isValid (proposedCheckout b x) = true -> exists c, checkOut b = Day c.
Proof.
  intros V. apply isValid_Day in V. destruct V as [p Hp].
  rewrite proposedCheckout_addNights, newDate_addNights in Hp.
  destruct (addNights_Day _ _ _ Hp) as [c [_ [_ [Hc _]]]].
  apply newDate_Day in Hc. exists c. tauto.
Qed.

(** C9, as stated, fails: extended by a hundred-thousand-million-millionth
    of a night, GuestA's booking is answered as updated, and still has five
    nights: the sum is rounded to a double, and so is not the old value plus
    the extra nights. *)
Lemma C9_tiny_extension_leaves_nights :
  (0 < decimal 1 (-17))%Q
  /\ response (extendBooking 1 (Num (decimal 1 (-17))) worldA)
     = Json 200 (Saved rowA)
  /\ Prisma.numberOfNights rowA = 5%Q
  /\ ~ (5 == 5 + decimal 1 (-17))%Q.
Proof.
  split; [reflexivity|]. split; [vm_compute; reflexivity|].
  split; [reflexivity|]. vm_compute. discriminate.
Qed.

(** C9, amended: when an extension is accepted, the targeted booking's
    [numberOfNights] is the double-precision sum of its old value and
    [extraNights], which is their exact sum when both are whole numbers; its
    [id], [guestName], [unitID] and [checkInDate] are as before, and every
    other record of the table is left as it was, in its place. *)
Theorem C9_extension_frame (i : Z) (x : number) (w : World)
    (u : Prisma.booking) :
  uniqueIds (table w) ->
  response (extendBooking i x w) = Json 200 (Saved u) ->
  exists b e,
    x = Num e /\ In b (table w) /\ Prisma.id b = i
    /\ add (Num (Prisma.numberOfNights b)) (Num e)
       = Num (Prisma.numberOfNights u)
    /\ (forall kb ke, (Prisma.numberOfNights b == inject_Z kb)%Q ->
          (e == inject_Z ke)%Q ->
          Prisma.numberOfNights u = inject_Z (kb + ke))
    /\ Prisma.id u = Prisma.id b
    /\ Prisma.guestName u = Prisma.guestName b
    /\ Prisma.unitID u = Prisma.unitID b
    /\ Prisma.checkInDate u = Prisma.checkInDate b
    /\ List.length (table (after (extendBooking i x w)))
       = List.length (table w)
    /\ forall k r, nth_error (table w) k = Some r ->
         nth_error (table (after (extendBooking i x w))) k
         = Some (if Prisma.id r =? i then u else r)
         /\ (Prisma.id r = i -> r = b).
Proof.
  intros N H.
  destruct (extendBooking_accepted i x w u H)
    as [b [e [s [-> [He [F [V [_ [A [-> T]]]]]]]]]].
  destruct (find_id _ _ _ F) as [Hin Hid].
  exists b, e. repeat (split; [first [reflexivity | assumption]|]).
  split.
  { intros kb ke Hkb Hke.
    pose proof (extension_whole_sum b e kb ke Hkb Hke V) as A'.
    rewrite A in A'. injection A' as ->. reflexivity. }
  repeat (split; [reflexivity|]).
  rewrite T. unfold after. cbn [snd table].
  split; [apply length_map|].
  intros k r Hk.
  assert (Hr : Prisma.id r = i -> r = b).
  { intros E. apply (uniqueIds_same (table w)); try assumption.
    - now apply nth_error_In with k.
    - congruence. }
  split; [|exact Hr].
  rewrite nth_error_map, Hk. cbn [option_map].
  destruct (Prisma.id r =? i) eqn:E; [|reflexivity].
  apply Z.eqb_eq in E. now rewrite (Hr E).
Qed.

Lemma C9_witness :
  exists u, response (extendBooking 1 (Num 2) worldA) = Json 200 (Saved u)
    /\ Prisma.numberOfNights u = 7%Q
    /\ exists b e, Num 2 = Num e /\ In b (table worldA) /\ Prisma.id b = 1
         /\ add (Num (Prisma.numberOfNights b)) (Num e)
            = Num (Prisma.numberOfNights u).
Proof.
  exists (setNights 7 rowA).
  assert (R : response (extendBooking 1 (Num 2) worldA)
              = Json 200 (Saved (setNights 7 rowA)))
    by (vm_compute; reflexivity).
  split; [exact R|]. split; [reflexivity|].
  assert (N : uniqueIds (table worldA)).
  { unfold uniqueIds. rewrite table_worldA. repeat constructor. simpl. tauto. }
  destruct (C9_extension_frame 1 (Num 2) worldA _ N R)
    as [b [e [Hx [Hin [Hid [Hn _]]]]]].
  exists b, e. split; [exact Hx|]. split; [exact Hin|].
  split; [exact Hid | exact Hn].
Defined.

(** ** The number of nights *)




(** ** Back-to-back bookings *)

Lemma table_worldZ :
  table worldZ = [mkRow 1 "GuestZ" "1" (Day (today + 5)) 0].
Proof. vm_compute. reflexivity. Qed.

(** C4, as stated, fails: a guest arriving the day a booking of zero nights
    both starts and ends is turned away, although that booking ends exactly
    at the candidate's check-in. *)
Lemma C4_zero_night_neighbour_rejected :
  (forall r, In r (table worldZ) ->
     Prisma.guestName r <> guestName backToBack)
  /\ (forall r, In r (table worldZ) ->
        Prisma.unitID r = unitID backToBack ->
        checkOut r = candidateCheckIn backToBack
        \/ checkIn r = candidateCheckOut backToBack)
  /\ response (createBooking backToBack worldZ) = Json 400 (Text UNIT_OCCUPIED).
Proof.
  rewrite table_worldZ.
  split; [|split]; [| |vm_compute; reflexivity].
  - intros r [<-|[]]. discriminate.
  - intros r [<-|[]] _. left. vm_compute. reflexivity.
Qed.

(** C4, amended: a candidate of at least one night whose checkout is a valid
    date, by a guest holding no booking, is accepted when every booking on
    its unit lasts at least one night and either ends exactly at the
    candidate's check-in or starts exactly at the candidate's checkout. *)
Theorem C4_back_to_back_accepted (c : Booking) (n : Q) (w : World) :
  numberOfNights c = Num n -> (1 <= n)%Q ->
  isValid (candidateCheckOut c) = true ->
  (forall r, In r (table w) -> Prisma.guestName r <> guestName c) ->
  (forall r, In r (table w) -> Prisma.unitID r = unitID c ->
     (1 <= Prisma.numberOfNights r)%Q
     /\ (checkOut r = candidateCheckIn c
         \/ checkIn r = candidateCheckOut c)) ->
  response (createBooking c w) = Json 200 (Saved (createdRow c n (table w)))
  /\ table (after (createBooking c w)) = table w ++ [createdRow c n (table w)].
Proof.
  intros Hn Hc Vo Hg Hu.
  pose proof (proj1 (isValid_Day _) Vo) as [e He].
  unfold candidateCheckOut in He. rewrite newDate_addNights, Hn in He.
  destruct (addNights_Day _ _ _ He) as [d [_ [_ [Hd _]]]].
  unfold candidateCheckIn in Hd. rewrite newDate_idem in Hd.
  fold (candidateCheckIn c) in Hd.
  assert (Hde : d < e).
  { apply (stay_ends_later (candidateCheckIn c) n); try assumption.
    unfold candidateCheckIn in *. now rewrite newDate_idem. }
  assert (Eo : candidateCheckOut c = Day e)
    by (unfold candidateCheckOut; now rewrite Hn).
  assert (R : firstFailingCheck c (table w) = Returned (mkOutcome true "OK")).
  { unfold firstFailingCheck.
    assert (G : guestAlreadyBooked c (table w) = false).
    { apply not_true_is_false. intros H. apply existsb_exists in H.
      destruct H as [r [Hin H]]. apply String.eqb_eq in H.
      exact (Hg r Hin H). }
    assert (G1 : sameGuestSameUnit c (table w) = false).
    { apply not_true_is_false. intros H. apply existsb_exists in H.
      destruct H as [r [Hin H]]. apply andb_true_iff in H.
      destruct H as [H _]. apply String.eqb_eq in H. exact (Hg r Hin H). }
    assert (Vi : isValid (candidateCheckIn c) = true).
    { apply isValid_Day. exists d. unfold candidateCheckIn in *.
      now rewrite newDate_idem. }
    assert (G3 : checkInCollision c (table w) = false).
    { apply not_true_is_false. intros H. apply existsb_exists in H.
      destruct H as [r [Hin H]]. apply andb_true_iff in H.
      destruct H as [Hun Heq]. apply String.eqb_eq in Hun.
      apply eqDate_spec in Heq. destruct Heq as [d' [Hr Hc']].
      assert (d' = d) by congruence. subst d'.
      destruct (Hu r Hin Hun) as [Hr1 [Ht|Ht]].
      - assert (Ei : checkIn r = Day d).
        { apply checkIn_Day. split; [exact Hr|].
          apply (proj1 (newDate_Day _ _)) in Hd. tauto. }
        rewrite Hd in Ht.
        assert (d < d); [|lia].
        apply (stay_ends_later (checkIn r) (Prisma.numberOfNights r));
          try assumption.
        unfold checkIn in *. now rewrite newDate_idem.
      - rewrite Eo in Ht. apply checkIn_Day in Ht.
        destruct Ht as [Ht _]. rewrite Hr in Ht. injection Ht as Ht. lia. }
    assert (G4 : intervalOverlap c (table w) = false).
    { apply not_true_is_false. intros H. apply existsb_exists in H.
      destruct H as [r [Hin H]]. rewrite !andb_true_iff in H.
      destruct H as [[Hun _] H]. apply String.eqb_eq in Hun.
      unfold candidateOverlaps in H. apply andb_true_iff in H.
      destruct H as [H1 H2].
      destruct (Hu r Hin Hun) as [_ [Ht|Ht]].
      - rewrite Ht, ltDate_irrefl in H1. discriminate H1.
      - rewrite Ht, ltDate_irrefl in H2. discriminate H2. }
    now rewrite G1, G, Vi, G3, Vo, G4. }
  rewrite createBooking_response, createBooking_table, R, Hn.
  split; reflexivity.
Qed.

Lemma C4_witness :
  response (createBooking backToBack worldA)
    = Json 200 (Saved (mkRow 2 "GuestB" "1" (Day (today + 5)) 2)).
Proof.
  refine (proj1 (C4_back_to_back_accepted backToBack 2 worldA _ _ _ _ _)).
  - reflexivity.
  - discriminate.
  - vm_compute. reflexivity.
  - rewrite table_worldA. intros r [<-|[]]. discriminate.
  - rewrite table_worldA. intros r [<-|[]] _.
    split; [discriminate | left; vm_compute; reflexivity].
Defined.

(** The hypothesis on the candidate's checkout is needed: a stay that would
    end after the last day a [Date] can hold ends the request in an
    error. *)
Remark far_checkout_is_an_error :
  let c := mkBooking "GuestB" "1" (Day (today + 5))
                     (Num (inject_Z 99980001)) in
  (forall r, In r (table worldA) -> Prisma.guestName r <> guestName c)
  /\ (forall r, In r (table worldA) -> Prisma.unitID r = unitID c ->
        (1 <= Prisma.numberOfNights r)%Q
        /\ checkOut r = candidateCheckIn c)
  /\ isValid (candidateCheckOut c) = false
  /\ response (createBooking c worldA) = Thrown.
Proof.
  cbv zeta. rewrite table_worldA.
  split; [intros r [<-|[]]; discriminate|].
  split; [|split; vm_compute; reflexivity].
  intros r [<-|[]] _. split; [discriminate | vm_compute; reflexivity].
Qed.

(** ** The non-overlap invariant *)

Lemma noOverlapb_spec (t : list Prisma.booking) :
  noOverlapb t = true <-> noOverlap t.
Proof.
  unfold noOverlapb, noOverlap. rewrite forallb_forall. split.
  - intros H a b Ha Hb Hid Hu.
    specialize (H a Ha). rewrite forallb_forall in H. specialize (H b Hb).
    rewrite !orb_true_iff, !negb_true_iff in H.
    destruct H as [[H|H]|H]; [| |exact H].
    + apply Z.eqb_eq in H. contradiction.
    + apply String.eqb_neq in H. contradiction.
  - intros H a Ha. rewrite forallb_forall. intros b Hb.
    destruct (Prisma.id a =? Prisma.id b) eqn:Ei; [reflexivity|].
    destruct (Prisma.unitID a =? Prisma.unitID b)%string eqn:Eu;
      [|reflexivity].
    apply Z.eqb_neq in Ei. apply String.eqb_eq in Eu.
    now rewrite (H a b Ha Hb Ei Eu).
Qed.



(** The table [createBooking] leaves: the one it found, or that one with one
    record more. *)
Lemma createBooking_table_cases (c : Booking) (w : World) :
  table (after (createBooking c w)) = table w
  \/ exists q, firstFailingCheck c (table w) = Returned (mkOutcome true "OK")
       /\ numberOfNights c = Num q
       /\ table (after (createBooking c w))
          = table w ++ [createdRow c q (table w)].
Proof.
  destruct (createBooking_run c w) as [[_ R]|[[why [_ [_ R]]]|[q [E [Hq R]]]]];
    rewrite R; [left; reflexivity | left; reflexivity |].
  right. exists q. repeat split; assumption.
Qed.


(** The table [extendBooking] leaves has the records it found, each with its
    columns other than [numberOfNights]. *)
Lemma extendBooking_table_shape (i : Z) (x : number) (w : World) :
  exists f : Prisma.booking -> Q,
    table (after (extendBooking i x w))
    = map (fun r => mkRow (Prisma.id r) (Prisma.guestName r) (Prisma.unitID r)
                          (Prisma.checkInDate r) (f r)) (table w).
Proof.
  assert (Same : exists f : Prisma.booking -> Q,
             table w
             = map (fun r => mkRow (Prisma.id r) (Prisma.guestName r)
                                   (Prisma.unitID r) (Prisma.checkInDate r)
                                   (f r)) (table w)).
  { exists Prisma.numberOfNights. rewrite <- (map_id (table w)) at 1.
    apply map_ext. now intros []. }
  destruct (invalidExtraNights_dec x) as [V|V];
    [now rewrite extendBooking_invalid|].
  rewrite (extendBooking_valid i x w V).
  destruct (find _ (table w)) as [b|]; [|exact Same].
  destruct (negb (isValid (proposedCheckout b x))); [exact Same|].
  destruct (extensionConflictb b x (table w)); [exact Same|].
  destruct (add (Num (Prisma.numberOfNights b)) x) as [| | |s];
    try exact Same.
  exists (fun r => if Prisma.id r =? i then s else Prisma.numberOfNights r).
  unfold after. cbn [snd table]. apply map_ext. intros r.
  destruct (Prisma.id r =? i); [reflexivity | now destruct r].
Qed.




Lemma ltDate_checkIn (r : Prisma.booking) (d : Date) :
  ltDate (checkIn r) d = true -> ltDate (Prisma.checkInDate r) d = true.
Proof.
  intros H. apply ltDate_spec in H. destruct H as [x [y [Hx [-> L]]]].
  apply checkIn_Day in Hx. destruct Hx as [-> _]. now apply Z.ltb_lt.
Qed.





Lemma setNights_checkIn (s : Q) (b : Prisma.booking) :
  checkIn (setNights s b) = checkIn b.
Proof. reflexivity. Qed.

(** The checkout of an extended booking is the proposed checkout the scan
    was made with, for whole numbers of nights. *)
Lemma extended_checkOut (b : Prisma.booking) (e s : Q) :
  isInteger (Prisma.numberOfNights b) = true -> isInteger e = true ->
  isValid (proposedCheckout b (Num e)) = true ->
  add (Num (Prisma.numberOfNights b)) (Num e) = Num s ->
  checkOut (setNights s b) = proposedCheckout b (Num e)
  /\ exists kb ke, (Prisma.numberOfNights b == inject_Z kb)%Q
       /\ (e == inject_Z ke)%Q /\ s = inject_Z (kb + ke).
Proof.
  intros Hi Hx V A.
  destruct (isInteger_Z _ Hi) as [kb Hkb].
  destruct (isInteger_Z _ Hx) as [ke Hke].
  pose proof (extension_whole_sum b e kb ke Hkb Hke V) as A'.
  rewrite A in A'. injection A' as ->.
  destruct (extension_whole b e kb ke Hkb Hke V)
    as [tb [Hd [Hci [Hco [Hp [Rt [Rc Rp]]]]]]].
  split; [|exists kb, ke; tauto].
  rewrite Hp.
  rewrite (checkOut_whole (setNights (inject_Z (kb + ke)) b) tb (kb + ke)).
  - apply newDate_Day. split; [f_equal; lia|]. exact Rp.
  - rewrite setNights_checkIn. exact Hci.
  - reflexivity.
Qed.


Lemma positive_extra (e : Q) : ~ invalidExtraNights (Num e) <-> (0 < e)%Q.
Proof.
  simpl. split.
  - intros V. destruct (Qlt_le_dec 0 e) as [L|L]; [exact L|].
    elim V. destruct (Qeq_dec e 0) as [E|E]; [now left | right; lra].
  - intros L [H|H]; lra.
Qed.









(** The same happens without any booking of zero nights once the extra
    nights are not whole: GuestA's four nights from 2024-10-28, followed by
    GuestC on 2024-11-01, are extended by the double just below one; the
    proposed checkout is still 2024-11-01, but the sum stored is five
    nights. *)
Remark fractional_nights_break_non_overlap :
  noOverlap (table worldOctober)
  /\ wholeNights (table worldOctober)
  /\ (0 < almostOne < 1)%Q
  /\ response (extendBooking 1 (Num almostOne) worldOctober)
     = Json 200 (Saved (mkRow 1 "GuestA" "1" (Day october28) 5))
  /\ ~ noOverlap (table (after (extendBooking 1 (Num almostOne)
                                  worldOctober))).
Proof.
  split; [|split; [|split; [|split]]].
  - apply noOverlapb_spec. vm_compute. reflexivity.
  - unfold wholeNights.
    replace (table worldOctober)
      with [mkRow 1 "GuestA" "1" (Day october28) 4;
            mkRow 2 "GuestC" "1" (Day (october28 + 4)) 2]
      by (vm_compute; reflexivity).
    repeat constructor; try (vm_compute; reflexivity); discriminate.
  - split; vm_compute; reflexivity.
  - vm_compute. reflexivity.
  - rewrite <- noOverlapb_spec. vm_compute. discriminate.
Qed.



(** * Further properties of the controller *)

(** ** [addNights] *)

Lemma newDate_Day_eq (t : Z) :
  newDate (Day t) = if inRange t then Day t else InvalidDate.
Proof. reflexivity. Qed.

(** X1: for a whole number of nights, negative ones included, [addNights]
    moves a valid date by exactly that many days, across the ends of months,
    when the day reached is one a [Date] can hold, and gives an invalid date
    otherwise; two such moves add up when the first one gives a valid
    date. *)
Theorem addNights_whole_days (d : Date) (t j k : Z) :
  newDate d = Day t ->
  addNights d (Num (inject_Z k))
    = (if inRange (t + k) then Day (t + k) else InvalidDate)
  /\ (inRange (t + j) = true ->
      addNights (addNights d (Num (inject_Z j))) (Num (inject_Z k))
      = addNights d (Num (inject_Z (j + k)))).
Proof.
  intros Hd.
  assert (W : forall d' t' z, newDate d' = Day t' ->
              addNights d' (Num (inject_Z z))
              = if inRange (t' + z) then Day (t' + z) else InvalidDate).
  { intros d' t' z H. rewrite <- newDate_Day_eq.
    apply addNights_whole; [exact H | reflexivity]. }
  split; [now apply W|]. intros Rj.
  rewrite (W d t j Hd), Rj, (W d t (j + k) Hd).
  rewrite (W (Day (t + j)) (t + j) k) by (now rewrite newDate_Day_eq, Rj).
  now replace (t + j + k) with (t + (j + k)) by lia.
Qed.

Lemma addNights_whole_days_witness :
  addNights (Day today) (Num (inject_Z 28)) = Day (today + 28)
  /\ addNights (Day today) (Num (inject_Z 99980001)) = InvalidDate.
Proof.
  split.
  - exact (proj1 (addNights_whole_days (Day today) today 0 28 eq_refl)).
  - exact (proj1 (addNights_whole_days (Day today) today 0 99980001 eq_refl)).
Defined.

(** A count of nights that gives a valid date is small. *)
Lemma addNights_Day_bounds (d : Date) (n : Q) (c : Z) :
  addNights d (Num n) = Day c ->
  (inject_Z (- 2 ^ 51) < n < inject_Z (2 ^ 51))%Q.
Proof.
  intros H.
  destruct (addNights_Day _ _ _ H) as [t [q [r [Ht [Eq [A [Hc [Rt Rc]]]]]]]].
  injection Eq as <-.
  pose proof (dayOfMonth_range t) as Hm.
  apply inRange_spec in Rt, Rc. unfold maxDay in *.
  assert (E51 : 2 ^ 51 = 2251799813685248) by reflexivity.
  assert (E53 : 2 ^ 53 = 9007199254740992) by reflexivity.
  split.
  - destruct (Qlt_le_dec (inject_Z (- 2 ^ 51)) n) as [L|L]; [exact L|].
    exfalso.
    assert (B : (inject_Z (dayOfMonth t) + n
                 <= inject_Z (31 - 2 ^ 51))%Q).
    { replace (31 - 2 ^ 51) with (31 + - 2 ^ 51) by lia.
      rewrite inject_Z_plus.
      assert (inject_Z (dayOfMonth t) <= inject_Z 31)%Q
        by (rewrite <- Zle_Qle; lia).
      lra. }
    pose proof (add_le _ _ _ (31 - 2 ^ 51) ltac:(lia) A B) as Hr.
    apply truncate_le in Hr. lia.
  - destruct (Qlt_le_dec n (inject_Z (2 ^ 51))) as [L|L]; [exact L|].
    exfalso.
    assert (B : (inject_Z (2 ^ 51) <= inject_Z (dayOfMonth t) + n)%Q).
    { assert (inject_Z 0 <= inject_Z (dayOfMonth t))%Q
        by (rewrite <- Zle_Qle; lia).
      change (inject_Z 0) with 0%Q in *. lra. }
    pose proof (add_ge _ _ _ (2 ^ 51) ltac:(lia) A B) as Hr.
    apply truncate_ge in Hr. lia.
Qed.

(** X2: a valid date returned by [addNights] is the given date moved by the
    count of nights rounded down or up to a whole number: it is never
    earlier than the one and never later than the other. *)
Theorem addNights_within_a_day (d : Date) (n : Q) (t c : Z) :
  newDate d = Day t -> addNights d (Num n) = Day c ->
  t + Qfloor n <= c <= t + Qceiling n.
Proof.
  intros Hd H.
  destruct (addNights_Day_bounds d n c H) as [Lo Hi].
  assert (E51 : 2 ^ 51 = 2251799813685248) by reflexivity.
  assert (E52 : 2 ^ 52 = 4503599627370496) by reflexivity.
  assert (F1 : - 2 ^ 51 <= Qfloor n).
  { rewrite <- (Qfloor_Z (- 2 ^ 51)). apply Qfloor_resp_le. lra. }
  assert (F2 : Qfloor n < 2 ^ 51).
  { rewrite Zlt_Qlt. eapply Qle_lt_trans; [apply Qfloor_le | exact Hi]. }
  assert (C1 : - 2 ^ 51 < Qceiling n).
  { rewrite Zlt_Qlt. eapply Qlt_le_trans; [exact Lo | apply Qle_ceiling]. }
  assert (C2 : Qceiling n <= 2 ^ 51).
  { rewrite <- (Qceiling_Z (2 ^ 51)). apply Qceiling_resp_le. lra. }
  split.
  - apply (addNights_ge d n t c (Qfloor n)); try assumption; [lia|].
    apply Qfloor_le.
  - apply (addNights_le d n t c (Qceiling n)); try assumption; [lia|].
    apply Qle_ceiling.
Qed.

(** Both ends are reached: half a night is dropped, and the double just
    below one night is a whole night once added to the ninth of the
    month. *)
Lemma addNights_within_a_day_witness :
  today + Qfloor (1 # 2) <= today <= today + Qceiling (1 # 2)
  /\ addNights (Day today) (Num (1 # 2)) = Day today
  /\ addNights (Day (today + 5)) (Num (decimal 9999999999999999 (-16)))
     = Day (today + 6).
Proof.
  split; [|split; vm_compute; reflexivity].
  apply (addNights_within_a_day (Day today) (1 # 2) today today);
    vm_compute; reflexivity.
Defined.

(** ** What the handlers ask of the table *)

(** X4: [isBookingPossible] only reads: it leaves the table as it is and
    issues between one and four [findMany] queries, and nothing else; all
    four are issued when it accepts. *)
Theorem isBookingPossible_reads_only (c : Booking) (w : World) :
  table (after (isBookingPossible c w)) = table w
  /\ exists k, (1 <= k <= 4)%nat
       /\ calls (after (isBookingPossible c w)) = calls w ++ repeat FindMany k
       /\ (forall o, settled (isBookingPossible c w) = Returned o ->
                     result o = true -> k = 4%nat).
Proof.
  unfold settled, after. rewrite isBookingPossible_run. cbn [fst snd table calls].
  split; [reflexivity|].
  exists (queriesIssued c (table w)). split; [|split; [reflexivity|]].
  - unfold queriesIssued.
    destruct (sameGuestSameUnit c (table w)); [lia|].
    destruct (guestAlreadyBooked c (table w)); [lia|].
    destruct (negb (isValid (candidateCheckIn c)) || checkInCollision c (table w));
      lia.
  - intros o F R.
    destruct (firstFailingCheck_accepts c _ o F R)
      as [_ [K1 [K2 [K3 [_ [d [q [Hd _]]]]]]]].
    unfold queriesIssued. rewrite K1, K2, K3.
    assert (Vi : isValid (candidateCheckIn c) = true)
      by (apply isValid_Day; exists d; unfold candidateCheckIn in *;
          now rewrite newDate_idem).
    now rewrite Vi.
Qed.

Lemma isBookingPossible_reads_only_witness :
  calls (after (isBookingPossible GUEST_A_UNIT_1 emptyWorld))
    = repeat FindMany 4.
Proof.
  destruct (isBookingPossible_reads_only GUEST_A_UNIT_1 emptyWorld)
    as [_ [k [_ [Hc Hk]]]].
  rewrite Hc, (Hk (mkOutcome true "OK") eq_refl eq_refl). reflexivity.
Defined.

Lemma queriesIssued_le (c : Booking) (t : list Prisma.booking) :
  (queriesIssued c t <= 4)%nat.
Proof.
  unfold queriesIssued.
  destruct (sameGuestSameUnit c t); [lia|].
  destruct (guestAlreadyBooked c t); [lia|].
  destruct (negb (isValid (candidateCheckIn c)) || checkInCollision c t); lia.
Qed.

(** X3: [createBooking] ends in an error, with no answer, exactly when the
    guest holds no booking and either the candidate's check-in is not a
    valid date, or no booking on the unit has that check-in date and the
    candidate's checkout is not a valid date. *)
Theorem createBooking_error_iff (c : Booking) (w : World) :
  response (createBooking c w) = Thrown
  <-> (forall r, In r (table w) -> Prisma.guestName r <> guestName c)
      /\ (isValid (candidateCheckIn c) = false
          \/ (checkInCollision c (table w) = false
              /\ isValid (candidateCheckOut c) = false)).
Proof.
  assert (G : guestAlreadyBooked c (table w) = false <->
              forall r, In r (table w) -> Prisma.guestName r <> guestName c).
  { split.
    - intros H r Hin E.
      assert (guestAlreadyBooked c (table w) = true)
        by (apply guestAlreadyBooked_spec; eauto).
      congruence.
    - intros H. apply not_true_is_false. intros G.
      apply guestAlreadyBooked_spec in G. destruct G as [r [Hin E]].
      exact (H r Hin E). }
  rewrite <- G. rewrite createBooking_response.
  destruct (firstFailingCheck c (table w)) as [o|] eqn:F.
  - assert (N : (if result o
                 then match numberOfNights c with
                      | Num q => Json 200 (Saved (createdRow c q (table w)))
                      | _ => Thrown
                      end
                 else Json 400 (Text (reason o))) <> Thrown).
    { destruct (result o) eqn:R; [|discriminate].
      destruct (firstFailingCheck_accepts c _ o F R)
        as [_ [_ [_ [_ [_ [d [q [_ [-> _]]]]]]]]]. discriminate. }
    split; [intros H; contradiction|].
    intros [H1 H2]. exfalso. unfold firstFailingCheck in F.
    destruct (sameGuestSameUnit c (table w)) eqn:S.
    { apply sameGuestSameUnit_spec in S. destruct S as [r [Hin [E _]]].
      rewrite G in H1. exact (H1 r Hin E). }
    rewrite H1 in F.
    destruct H2 as [V|[K V]]; [now rewrite V in F|].
    destruct (negb (isValid (candidateCheckIn c))); [discriminate F|].
    rewrite K, V in F. discriminate F.
  - split; [|reflexivity]. intros _. unfold firstFailingCheck in F.
    destruct (sameGuestSameUnit c (table w)); [discriminate F|].
    destruct (guestAlreadyBooked c (table w)); [discriminate F|].
    split; [reflexivity|].
    destruct (isValid (candidateCheckIn c)); cbn [negb] in F; [|now left].
    destruct (checkInCollision c (table w)); [discriminate F|].
    destruct (isValid (candidateCheckOut c)); cbn [negb] in F; [|now right].
    destruct (intervalOverlap c (table w)); discriminate F.
Qed.

(** X5: [createBooking] ends in one of three ways: in an error, or with 400
    and one of the three reasons, having in both cases only read (at most
    four queries) and left the table as it was; or with 200 and the new
    record, which carries the candidate's four fields and is added at the
    end of the table, nothing else being touched, after exactly four queries
    and one [create]. *)
Theorem createBooking_effect (c : Booking) (w : World) :
  (exists k,
      response (createBooking c w) = Thrown
      /\ table (after (createBooking c w)) = table w
      /\ (k <= 4)%nat
      /\ calls (after (createBooking c w)) = calls w ++ repeat FindMany k)
  \/ (exists why k,
      response (createBooking c w) = Json 400 (Text why)
      /\ In why [GUEST_UNIT_DUPLICATE; GUEST_ALREADY_BOOKED; UNIT_OCCUPIED]
      /\ table (after (createBooking c w)) = table w
      /\ (k <= 4)%nat
      /\ calls (after (createBooking c w)) = calls w ++ repeat FindMany k)
  \/ (exists u,
      response (createBooking c w) = Json 200 (Saved u)
      /\ Prisma.guestName u = guestName c
      /\ Prisma.unitID u = unitID c
      /\ Prisma.checkInDate u = checkInDate c
      /\ Num (Prisma.numberOfNights u) = numberOfNights c
      /\ table (after (createBooking c w)) = table w ++ [u]
      /\ calls (after (createBooking c w))
         = calls w ++ repeat FindMany 4 ++ [Create]).
Proof.
  pose proof (queriesIssued_le c (table w)) as Hk.
  destruct (createBooking_run c w) as [[E R]|[[why [E [Hy R]]]|[q [E [Hq R]]]]];
    rewrite R; unfold response, after; cbn [fst snd table calls].
  - left. exists (queriesIssued c (table w)). repeat split. exact Hk.
  - right. left. exists why, (queriesIssued c (table w)).
    repeat split; assumption.
  - right. right. exists (createdRow c q (table w)).
    destruct (firstFailingCheck_accepts c _ _ E eq_refl)
      as [_ [_ [_ [_ [_ [d [q' [Hd _]]]]]]]].
    split; [reflexivity|]. split; [reflexivity|]. split; [reflexivity|].
    split.
    { unfold createdRow. cbn [Prisma.checkInDate].
      rewrite Hd. symmetry. apply (proj1 (newDate_Day _ _) Hd). }
    split; [now rewrite Hq|].
    split; reflexivity.
Qed.

(** The sum an extension stores is a finite number whenever the proposed
    checkout is a valid date. *)
Lemma extension_sum_finite (b : Prisma.booking) (e : Q) :
  isValid (proposedCheckout b (Num e)) = true ->
  exists s, add (Num (Prisma.numberOfNights b)) (Num e) = Num s.
Proof.
  intros V.
  destruct (proposedCheckout_valid _ _ V) as [c Hc].
  apply isValid_Day in V. destruct V as [p Hp].
  rewrite proposedCheckout_addNights, newDate_addNights in Hp.
  unfold checkOut in Hc.
  pose proof (addNights_Day_bounds _ _ _ Hc) as [L1 H1].
  pose proof (addNights_Day_bounds _ _ _ Hp) as [L2 H2].
  assert (E51 : 2 ^ 51 = 2251799813685248) by reflexivity.
  assert (E52 : 2 ^ 52 = 4503599627370496) by reflexivity.
  assert (E53 : 2 ^ 53 = 9007199254740992) by reflexivity.
  assert (B1 : (inject_Z (- 2 ^ 52) <= Prisma.numberOfNights b + e)%Q).
  { replace (- 2 ^ 52) with (- 2 ^ 51 + - 2 ^ 51) by lia.
    rewrite inject_Z_plus. lra. }
  assert (B2 : (Prisma.numberOfNights b + e <= inject_Z (2 ^ 52))%Q).
  { replace (2 ^ 52) with (2 ^ 51 + 2 ^ 51) by lia.
    rewrite inject_Z_plus. lra. }
  pose proof (fround_ge (- 2 ^ 52) _ ltac:(lia) B1) as F1.
  pose proof (fround_le (2 ^ 52) _ ltac:(lia) B2) as F2.
  unfold add. cbv zeta.
  assert (M : 2 ^ 53 <= 2 ^ 1024) by (apply Z.pow_le_mono_r; lia).
  set (M1024 := 2 ^ 1024) in *.
  destruct (Qle_bool (inject_Z M1024) _) eqn:O1.
  { apply Qle_bool_iff in O1.
    pose proof (Qle_trans _ _ _ O1 F2) as K. rewrite <- Zle_Qle in K. lia. }
  destruct (Qle_bool _ (inject_Z (- M1024))) eqn:O2.
  { apply Qle_bool_iff in O2.
    pose proof (Qle_trans _ _ _ F1 O2) as K. rewrite <- Zle_Qle in K. lia. }
  eauto.
Qed.

(** X6: [extendBooking] has five outcomes and no other: 400 with nothing
    asked of the table; 404 after the look-up alone; an error after the
    look-up and a query that was rejected, the proposed checkout not being
    a valid date; 409 after the look-up and one query; 200 with the updated
    record after the look-up, one query and one [update].  The table changes
    in the last case only, and the [update] never fails. *)
Theorem extendBooking_outcomes (i : Z) (x : number) (w : World) :
  (response (extendBooking i x w) = Json 400 (Message INVALID_EXTRA_NIGHTS)
   /\ after (extendBooking i x w) = w)
  \/ (response (extendBooking i x w) = Json 404 (Message BOOKING_NOT_FOUND)
      /\ table (after (extendBooking i x w)) = table w
      /\ calls (after (extendBooking i x w)) = calls w ++ [FindUnique])
  \/ (response (extendBooking i x w) = Thrown
      /\ table (after (extendBooking i x w)) = table w
      /\ calls (after (extendBooking i x w))
         = calls w ++ [FindUnique; FindMany])
  \/ (response (extendBooking i x w) = Json 409 (Message EXTENSION_CONFLICT)
      /\ table (after (extendBooking i x w)) = table w
      /\ calls (after (extendBooking i x w))
         = calls w ++ [FindUnique; FindMany])
  \/ (exists u, response (extendBooking i x w) = Json 200 (Saved u)
      /\ In u (table (after (extendBooking i x w)))
      /\ calls (after (extendBooking i x w))
         = calls w ++ [FindUnique; FindMany; Update]).
Proof.
  destruct (invalidExtraNights_dec x) as [V|V];
    [left; now rewrite extendBooking_invalid|].
  right. rewrite (extendBooking_valid i x w V).
  destruct (find _ (table w)) as [b|] eqn:F;
    [|left; repeat split].
  right. destruct (isValid (proposedCheckout b x)) eqn:P; cbn [negb];
    [|left; repeat split].
  right. destruct (extensionConflictb b x (table w));
    [left; repeat split|].
  right.
  assert (Hx : exists e, x = Num e).
  { apply isValid_Day in P. destruct P as [p Hp].
    rewrite proposedCheckout_addNights, newDate_addNights in Hp.
    destruct (addNights_Day _ _ _ Hp) as [_ [q [_ [_ [Hq _]]]]]. eauto. }
  destruct Hx as [e ->].
  destruct (extension_sum_finite b e P) as [s ->].
  exists (setNights s b). split; [reflexivity|]. split; [|reflexivity].
  unfold after. cbn [snd table].
  destruct (find_id _ _ _ F) as [Hin Hid].
  apply in_map_iff. exists b. split; [|exact Hin].
  now rewrite (proj2 (Z.eqb_eq _ _) Hid).
Qed.

(** X7: with a valid [extraNights], the answer is BOOKING_NOT_FOUND exactly
    when no record of the table has the requested id. *)
Theorem extendBooking_not_found_iff (i : Z) (x : number) (w : World) :
  response (extendBooking i x w) = Json 404 (Message BOOKING_NOT_FOUND)
  <-> ~ invalidExtraNights x
      /\ forall r, In r (table w) -> Prisma.id r <> i.
Proof.
  destruct (invalidExtraNights_dec x) as [V|V].
  - rewrite extendBooking_invalid by exact V.
    split; [intros H; discriminate H | tauto].
  - rewrite (extendBooking_valid i x w V).
    destruct (find _ (table w)) as [b|] eqn:F.
    + destruct (find_id _ _ _ F) as [Hin Hid].
      split.
      * destruct (negb (isValid (proposedCheckout b x)));
          [intros H; discriminate H|].
        destruct (extensionConflictb b x (table w));
          [intros H; discriminate H|].
        destruct (add (Num (Prisma.numberOfNights b)) x);
          intros H; discriminate H.
      * intros [_ H]. elim (H b Hin Hid).
    + split; [|reflexivity]. intros _. split; [exact V|].
      intros r Hin E.
      pose proof (find_none _ _ F r Hin) as N. cbv beta in N.
      apply Z.eqb_neq in N. contradiction.
Qed.

(** X8: no request to [extendBooking] adds or removes a record or reorders the
    table, and none changes the [id], [guestName], [unitID] or [checkInDate]
    of a record. *)
Theorem extendBooking_keeps_columns (i : Z) (x : number) (w : World) :
  map Prisma.id (table (after (extendBooking i x w))) = map Prisma.id (table w)
  /\ map Prisma.guestName (table (after (extendBooking i x w)))
     = map Prisma.guestName (table w)
  /\ map Prisma.unitID (table (after (extendBooking i x w)))
     = map Prisma.unitID (table w)
  /\ map Prisma.checkInDate (table (after (extendBooking i x w)))
     = map Prisma.checkInDate (table w).
Proof.
  destruct (extendBooking_table_shape i x w) as [f ->].
  rewrite !map_map. cbn [Prisma.id Prisma.guestName Prisma.unitID
                          Prisma.checkInDate].
  repeat split; reflexivity.
Qed.

(** ** When a booking is accepted *)

Lemma guestAlreadyBooked_none (c : Booking) (t : list Prisma.booking) :
  guestAlreadyBooked c t = false <->
  forall r, In r t -> Prisma.guestName r <> guestName c.
Proof.
  split.
  - intros H r Hin E.
    assert (guestAlreadyBooked c t = true)
      by (apply guestAlreadyBooked_spec; eauto).
    congruence.
  - intros H. apply not_true_is_false. intros G.
    apply guestAlreadyBooked_spec in G. destruct G as [r [Hin E]].
    exact (H r Hin E).
Qed.

Lemma sameGuestSameUnit_none (c : Booking) (t : list Prisma.booking) :
  guestAlreadyBooked c t = false -> sameGuestSameUnit c t = false.
Proof.
  intros H. apply not_true_is_false. intros G.
  apply sameGuestSameUnit_spec in G. destruct G as [r [Hin [E _]]].
  rewrite guestAlreadyBooked_none in H. exact (H r Hin E).
Qed.

Lemma candidateCheckIn_Day (c : Booking) (d : Z) :
  candidateCheckIn c = Day d <-> checkInDate c = Day d /\ inRange d = true.
Proof. unfold candidateCheckIn. apply newDate_Day. Qed.

Lemma candidateCheckOut_valid (c : Booking) :
  isValid (candidateCheckOut c) = true ->
  exists d e q, candidateCheckIn c = Day d /\ candidateCheckOut c = Day e
                /\ numberOfNights c = Num q.
Proof.
  intros Vo. pose proof (proj1 (isValid_Day _) Vo) as [e He].
  unfold candidateCheckOut in He |- *. rewrite newDate_addNights in He.
  destruct (addNights_Day _ _ _ He) as [d [q [_ [Hd [Hq _]]]]].
  unfold candidateCheckIn in Hd |- *. rewrite newDate_idem in Hd.
  exists d, e, q. tauto.
Qed.

Lemma candidateCheckIn_valid (c : Booking) (d : Z) :
  candidateCheckIn c = Day d -> isValid (candidateCheckIn c) = true.
Proof.
  intros H. apply isValid_Day. exists d.
  unfold candidateCheckIn in *. now rewrite newDate_idem.
Qed.

Lemma checkInCollision_spec (c : Booking) (t : list Prisma.booking) :
  isValid (candidateCheckIn c) = true ->
  checkInCollision c t = true <->
  exists r, In r t /\ Prisma.unitID r = unitID c
            /\ Prisma.checkInDate r = checkInDate c.
Proof.
  intros Vi. apply isValid_Day in Vi. destruct Vi as [d Hd].
  unfold candidateCheckIn in Hd. rewrite newDate_idem in Hd.
  fold (candidateCheckIn c) in Hd.
  pose proof (proj1 (candidateCheckIn_Day c d) Hd) as [Ec _].
  unfold checkInCollision. rewrite existsb_exists.
  split; intros [r [Hin H]]; exists r; split; try exact Hin.
  - apply andb_true_iff in H. destruct H as [Hu He].
    split; [now apply String.eqb_eq|].
    apply eqDate_spec in He. destruct He as [x [-> Hx]]. congruence.
  - destruct H as [Hu He]. apply andb_true_iff.
    split; [now apply String.eqb_eq|].
    rewrite He, Ec, Hd. cbn [eqDate]. apply Z.eqb_refl.
Qed.

Lemma intervalOverlap_spec (c : Booking) (t : list Prisma.booking) :
  intervalOverlap c t = true <->
  exists r, In r t /\ Prisma.unitID r = unitID c /\ meets c r.
Proof.
  unfold intervalOverlap, candidateOverlaps, meets. rewrite existsb_exists.
  split; intros [r [Hin H]]; exists r; split; try exact Hin.
  - rewrite !andb_true_iff in H. destruct H as [[Hu _] [H1 H2]].
    apply String.eqb_eq in Hu. tauto.
  - destruct H as [Hu [H1 H2]]. rewrite !andb_true_iff.
    apply String.eqb_eq in Hu.
    pose proof (ltDate_checkIn _ _ H2). tauto.
Qed.

(** The candidates the four checks let through. *)
Lemma firstFailingCheck_ok_iff (c : Booking) (t : list Prisma.booking) :
  firstFailingCheck c t = Returned (mkOutcome true "OK")
  <-> guestAlreadyBooked c t = false
      /\ isValid (candidateCheckOut c) = true
      /\ checkInCollision c t = false /\ intervalOverlap c t = false.
Proof.
  split.
  - intros F.
    destruct (firstFailingCheck_accepts c t _ F eq_refl)
      as [_ [_ [K2 [K3 [K4 [_ [_ [_ [_ V]]]]]]]]]. tauto.
  - intros [K2 [V [K3 K4]]].
    destruct (candidateCheckOut_valid c V) as [d [e [q [Hd _]]]].
    unfold firstFailingCheck.
    rewrite (sameGuestSameUnit_none c t K2), K2,
      (candidateCheckIn_valid c d Hd), K3, V, K4.
    reflexivity.
Qed.

(** X9: [createBooking] accepts a candidate exactly when its checkout is a
    valid date, no booking is in the candidate's guest's name and, on the
    candidate's unit, no booking has the candidate's check-in date or an
    interval that meets the candidate's; in particular the restriction of
    the last query to bookings that start before the candidate's checkout
    loses nothing. *)
Theorem createBooking_accepts_iff (c : Booking) (w : World) :
  (exists u, response (createBooking c w) = Json 200 (Saved u))
  <-> isValid (candidateCheckOut c) = true
      /\ (forall r, In r (table w) -> Prisma.guestName r <> guestName c)
      /\ (forall r, In r (table w) -> Prisma.unitID r = unitID c ->
            Prisma.checkInDate r <> checkInDate c /\ ~ meets c r).
Proof.
  rewrite <- guestAlreadyBooked_none.
  assert (A : (exists u, response (createBooking c w) = Json 200 (Saved u))
              <-> firstFailingCheck c (table w)
                  = Returned (mkOutcome true "OK")).
  { rewrite createBooking_response. split.
    - intros [u H].
      destruct (firstFailingCheck c (table w)) as [o|] eqn:F;
        [|discriminate H].
      destruct (result o) eqn:R; [|discriminate H].
      now destruct (firstFailingCheck_accepts c _ o F R) as [-> _].
    - intros F. rewrite F. cbn [result].
      destruct (firstFailingCheck_accepts c _ _ F eq_refl)
        as [_ [_ [_ [_ [_ [d [q [_ [-> _]]]]]]]]].
      eexists. reflexivity. }
  rewrite A, firstFailingCheck_ok_iff. split.
  - intros [K2 [V [K3 K4]]]. split; [exact V|]. split; [exact K2|].
    destruct (candidateCheckOut_valid c V) as [d [e [q [Hd _]]]].
    pose proof (candidateCheckIn_valid c d Hd) as Vi.
    intros r Hin Hu. split.
    + intros E.
      assert (checkInCollision c (table w) = true)
        by (apply (checkInCollision_spec c _ Vi); eauto).
      congruence.
    + intros Hm.
      assert (intervalOverlap c (table w) = true)
        by (apply intervalOverlap_spec; eauto).
      congruence.
  - intros [V [K2 H]]. split; [exact K2|]. split; [exact V|].
    destruct (candidateCheckOut_valid c V) as [d [e [q [Hd _]]]].
    pose proof (candidateCheckIn_valid c d Hd) as Vi.
    split; apply not_true_is_false; intros K.
    + apply (checkInCollision_spec c _ Vi) in K.
      destruct K as [r [Hin [Hu E]]]. destruct (H r Hin Hu). contradiction.
    + apply intervalOverlap_spec in K.
      destruct K as [r [Hin [Hu Hm]]]. destruct (H r Hin Hu). contradiction.
Qed.

Lemma refused_as_occupied (c : Booking) (w : World) :
  guestAlreadyBooked c (table w) = false ->
  isValid (candidateCheckIn c) = true ->
  checkInCollision c (table w) = true
  \/ (isValid (candidateCheckOut c) = true
      /\ intervalOverlap c (table w) = true) ->
  response (createBooking c w) = Json 400 (Text UNIT_OCCUPIED)
  /\ table (after (createBooking c w)) = table w.
Proof.
  intros G Vi H.
  assert (F : firstFailingCheck c (table w)
              = Returned (mkOutcome false UNIT_OCCUPIED)).
  { unfold firstFailingCheck.
    rewrite (sameGuestSameUnit_none c _ G), G, Vi. cbn [negb].
    destruct (checkInCollision c (table w)); [reflexivity|].
    destruct H as [H|[Vo O]]; [discriminate H|].
    now rewrite Vo, O. }
  rewrite createBooking_response, createBooking_table, F. cbn [result reason].
  split; [reflexivity|]. now destruct (numberOfNights c).
Qed.

(** A candidate that checks in during a stay overlaps it. *)
Lemma inside_stay_overlaps (c : Booking) (r : Prisma.booking)
    (t : list Prisma.booking) (n : Q) :
  In r t -> Prisma.unitID r = unitID c ->
  isValid (candidateCheckOut c) = true ->
  numberOfNights c = Num n -> (0 <= n)%Q ->
  ltDate (checkIn r) (candidateCheckIn c) = true ->
  ltDate (candidateCheckIn c) (checkOut r) = true ->
  intervalOverlap c t = true.
Proof.
  intros Hin Hu Vo Hn Pn H1 H2.
  apply intervalOverlap_spec. exists r. split; [exact Hin|].
  split; [exact Hu|]. split; [exact H2|].
  destruct (candidateCheckOut_valid c Vo) as [d [e [q [Hd [He _]]]]].
  rewrite He. rewrite Hd in H1.
  apply ltDate_spec in H1. destruct H1 as [x [y [Ex [Ey L]]]].
  injection Ey as <-. rewrite Ex. cbn [ltDate]. apply Z.ltb_lt.
  assert (d <= e); [|lia].
  apply (stay_ends_no_earlier (candidateCheckIn c) n); try assumption.
  - unfold candidateCheckIn in *. now rewrite newDate_idem.
  - unfold candidateCheckOut in He. now rewrite Hn in He.
Qed.

(** X10: a guest without a booking, asking for a valid check-in date, is
    refused a unit, with UNIT_OCCUPIED and the table untouched, when a
    booking on that unit has the same check-in date, whatever the two
    numbers of nights, or when the candidate, for a number of nights that is
    not negative and with a checkout that is a valid date, checks in during
    that booking. *)
Theorem occupied_unit_refused (c : Booking) (w : World) (r : Prisma.booking) :
  (forall r', In r' (table w) -> Prisma.guestName r' <> guestName c) ->
  In r (table w) -> Prisma.unitID r = unitID c ->
  isValid (candidateCheckIn c) = true ->
  Prisma.checkInDate r = checkInDate c
  \/ (isValid (candidateCheckOut c) = true
      /\ (exists n, numberOfNights c = Num n /\ (0 <= n)%Q)
      /\ ltDate (checkIn r) (candidateCheckIn c) = true
      /\ ltDate (candidateCheckIn c) (checkOut r) = true) ->
  response (createBooking c w) = Json 400 (Text UNIT_OCCUPIED)
  /\ table (after (createBooking c w)) = table w.
Proof.
  intros Hg Hin Hu Vi H.
  apply guestAlreadyBooked_none in Hg.
  apply (refused_as_occupied c w Hg Vi).
  destruct H as [Hd|[Vo [[n [Hn Pn]] [H1 H2]]]].
  - left. apply (checkInCollision_spec c _ Vi). eauto.
  - right. split; [exact Vo|].
    now apply (inside_stay_overlaps c r (table w) n).
Qed.

Lemma occupied_unit_refused_witness :
  response (createBooking (mkBooking "GuestB" "1" (Day (today + 1)) (Num 5))
                          worldA)
    = Json 400 (Text UNIT_OCCUPIED).
Proof.
  refine (proj1 (occupied_unit_refused
                   (mkBooking "GuestB" "1" (Day (today + 1)) (Num 5)) worldA
                   rowA _ _ _ _ _)).
  - rewrite table_worldA. intros r [<-|[]]. discriminate.
  - rewrite table_worldA. left. reflexivity.
  - reflexivity.
  - vm_compute. reflexivity.
  - right. split; [vm_compute; reflexivity|].
    split; [exists 5%Q; split; [reflexivity | discriminate]|].
    split; vm_compute; reflexivity.
Defined.

(** X11: on an empty table every candidate whose checkout is a valid date is
    accepted, whatever its fields (none is validated), and becomes the only
    record; for any other candidate the request ends in an error and the
    table stays empty. *)
Theorem first_booking_accepted (c : Booking) (w : World) :
  table w = [] ->
  (isValid (candidateCheckOut c) = true ->
   exists u, response (createBooking c w) = Json 200 (Saved u)
     /\ table (after (createBooking c w)) = [u]
     /\ Prisma.guestName u = guestName c
     /\ Prisma.unitID u = unitID c
     /\ Prisma.checkInDate u = checkInDate c
     /\ Num (Prisma.numberOfNights u) = numberOfNights c)
  /\ (isValid (candidateCheckOut c) = false ->
      response (createBooking c w) = Thrown
      /\ table (after (createBooking c w)) = []).
Proof.
  intros E. split.
  - intros V.
    assert (F : firstFailingCheck c (table w)
                = Returned (mkOutcome true "OK")).
    { apply firstFailingCheck_ok_iff. rewrite E. repeat split. exact V. }
    destruct (candidateCheckOut_valid c V) as [d [e [q [Hd [_ Hq]]]]].
    exists (createdRow c q (table w)).
    rewrite createBooking_response, createBooking_table, F, Hq.
    cbn [result]. rewrite E. cbn [app].
    repeat (split; [reflexivity|]). split; [|reflexivity].
    unfold createdRow. cbn [Prisma.checkInDate]. rewrite Hd.
    symmetry. apply (proj1 (candidateCheckIn_Day c d) Hd).
  - intros V.
    assert (F : firstFailingCheck c (table w) = Rejected).
    { unfold firstFailingCheck. rewrite E. cbn [sameGuestSameUnit
        guestAlreadyBooked checkInCollision intervalOverlap existsb].
      destruct (isValid (candidateCheckIn c)); cbn [negb]; [|reflexivity].
      now rewrite V. }
    rewrite createBooking_response, createBooking_table, F. now rewrite E.
Qed.

Lemma first_booking_accepted_witness :
  exists u, table (after (createBooking zeroNights emptyWorld)) = [u]
            /\ Num (Prisma.numberOfNights u) = Num 0.
Proof.
  destruct (proj1 (first_booking_accepted zeroNights emptyWorld eq_refl))
    as [u [_ [Ht [_ [_ [_ Hn]]]]]].
  - vm_compute. reflexivity.
  - exists u. split; [exact Ht | exact Hn].
Defined.

(** ** One booking for each guest *)

Lemma serve_holdsOnly (g unit_ : string) (q : Request) (w : World) :
  holdsOnly g unit_ (table w) -> holdsOnly g unit_ (table (after (serve q w))).
Proof.
  intros [[r0 [Hin0 Hg0]] Hall].
  destruct q as [|c|i x]; cbn [serve].
  - split; [exists r0; tauto | exact Hall].
  - destruct (createBooking_table_cases c w) as [->|[q [F [_ ->]]]];
      [split; [exists r0; tauto | exact Hall]|].
    split.
    + exists r0. split; [apply in_app_iff; now left | exact Hg0].
    + intros r Hin Hg. apply in_app_iff in Hin.
      destruct Hin as [Hin|[<-|[]]]; [now apply Hall|].
      exfalso. cbn [createdRow Prisma.guestName] in Hg.
      apply firstFailingCheck_ok_iff in F. destruct F as [G _].
      rewrite guestAlreadyBooked_none in G.
      apply (G r0 Hin0). congruence.
  - destruct (extendBooking_table_shape i x w) as [f ->].
    split.
    + exists (mkRow (Prisma.id r0) (Prisma.guestName r0) (Prisma.unitID r0)
                    (Prisma.checkInDate r0) (f r0)).
      split; [|exact Hg0].
      apply in_map_iff. exists r0. tauto.
    + intros r Hin Hg. apply in_map_iff in Hin.
      destruct Hin as [r' [<- Hin]]. cbn in Hg |- *. now apply Hall.
Qed.

Lemma serveAll_holdsOnly (g unit_ : string) (qs : list Request) (w : World) :
  holdsOnly g unit_ (table w) -> holdsOnly g unit_ (table (serveAll qs w)).
Proof.
  revert w. induction qs as [|q qs IH]; intros w H; cbn [serveAll];
    [exact H|].
  apply IH. now apply serve_holdsOnly.
Qed.

(** X12: once a guest's booking has been accepted, every later create
    request in that guest's name, whatever the requests served in between,
    is refused with 400: with GUEST_UNIT_DUPLICATE when it asks for the same
    unit, with GUEST_ALREADY_BOOKED for any other unit, whatever its dates
    and nights. *)
Theorem second_booking_refused (c c' : Booking) (w : World)
    (u : Prisma.booking) (qs : list Request) :
  response (createBooking c w) = Json 200 (Saved u) ->
  guestName c' = guestName c ->
  response (createBooking c' (serveAll qs (after (createBooking c w))))
  = Json 400 (Text (if (unitID c' =? unitID c)%string
                    then GUEST_UNIT_DUPLICATE else GUEST_ALREADY_BOOKED))
  /\ table (after (createBooking c' (serveAll qs (after (createBooking c w)))))
     = table (serveAll qs (after (createBooking c w))).
Proof.
  intros H Hg.
  assert (I0 : holdsOnly (guestName c) (unitID c)
                 (table (after (createBooking c w)))).
  { destruct (createBooking_table_cases c w) as [E|[q [F [_ ->]]]].
    - exfalso. rewrite createBooking_response in H.
      rewrite createBooking_table in E.
      destruct (firstFailingCheck c (table w)) as [o|]; [|discriminate H].
      destruct (result o); [|discriminate H].
      destruct (numberOfNights c); try discriminate H.
      apply (f_equal (@List.length _)) in E. rewrite length_app in E.
      cbn [List.length] in E. lia.
    - apply firstFailingCheck_ok_iff in F. destruct F as [G _].
      rewrite guestAlreadyBooked_none in G.
      split.
      + exists (createdRow c q (table w)).
        split; [apply in_app_iff; right; now left | reflexivity].
      + intros r Hin Hr. apply in_app_iff in Hin.
        destruct Hin as [Hin|[<-|[]]]; [|reflexivity].
        elim (G r Hin Hr). }
  pose proof (serveAll_holdsOnly _ _ qs _ I0) as [[r [Hin Hr]] Hall].
  set (w' := serveAll qs (after (createBooking c w))) in *.
  assert (G : guestAlreadyBooked c' (table w') = true).
  { apply guestAlreadyBooked_spec. exists r. split; [exact Hin|]. congruence. }
  rewrite createBooking_response, createBooking_table.
  unfold firstFailingCheck. rewrite G.
  destruct (unitID c' =? unitID c)%string eqn:U.
  - apply String.eqb_eq in U.
    assert (S : sameGuestSameUnit c' (table w') = true).
    { apply sameGuestSameUnit_spec. exists r. split; [exact Hin|].
      split; [congruence|]. rewrite U. now apply Hall. }
    rewrite S. cbn [result reason]. split; [reflexivity|].
    now destruct (numberOfNights c').
  - apply String.eqb_neq in U.
    assert (S : sameGuestSameUnit c' (table w') = false).
    { apply not_true_is_false. intros S. apply sameGuestSameUnit_spec in S.
      destruct S as [r' [Hin' [Hg' Hu']]].
      apply U. rewrite <- Hu'. apply Hall; [exact Hin' | congruence]. }
    rewrite S. cbn [result reason]. split; [reflexivity|].
    now destruct (numberOfNights c').
Qed.

Lemma second_booking_refused_witness :
  response (createBooking GUEST_A_UNIT_2
              (serveAll [PostBooking blocker; PostExtend 2 (Num 1)]
                        (after (createBooking GUEST_A_UNIT_1 emptyWorld))))
    = Json 400 (Text GUEST_ALREADY_BOOKED).
Proof.
  refine (proj1 (second_booking_refused GUEST_A_UNIT_1 GUEST_A_UNIT_2
                   emptyWorld rowA
                   [PostBooking blocker; PostExtend 2 (Num 1)] _ _)).
  - vm_compute. reflexivity.
  - reflexivity.
Defined.

(** ** Extensions *)

Lemma extensionConflictb_mono (b : Prisma.booking) (x x' : number)
    (t : list Prisma.booking) (p p' : Z) :
  proposedCheckout b x = Day p -> proposedCheckout b x' = Day p' ->
  p <= p' ->
  extensionConflictb b x t = true -> extensionConflictb b x' t = true.
Proof.
  intros Hp Hp' L H. unfold extensionConflictb in *.
  apply existsb_exists in H. destruct H as [o [Hin H]].
  apply existsb_exists. exists o. split; [exact Hin|].
  rewrite Hp in H. rewrite Hp'.
  rewrite !andb_true_iff in H |- *.
  destruct H as [[[Hu Hi] H1] [H2 H3]].
  assert (M : forall d, ltDate d (Day p) = true -> ltDate d (Day p') = true).
  { intros [|y]; cbn [ltDate]; [discriminate|].
    rewrite !Z.ltb_lt. lia. }
  repeat split; auto.
Qed.

(** X13: if [extendBooking] answers 409 for some [extraNights], then for
    every count of extra nights that is at least that one rounded up to a
    whole number it answers 409 again, or ends in an error when the proposed
    checkout is no longer a valid date; it never accepts. *)
Theorem longer_extension_refused (i : Z) (e e' : Q) (w : World) :
  response (extendBooking i (Num e) w) = Json 409 (Message EXTENSION_CONFLICT) ->
  (inject_Z (Qceiling e) <= e')%Q ->
  response (extendBooking i (Num e') w) = Json 409 (Message EXTENSION_CONFLICT)
  \/ response (extendBooking i (Num e') w) = Thrown.
Proof.
  intros H Hle.
  destruct (invalidExtraNights_dec (Num e)) as [V|V];
    [rewrite extendBooking_invalid in H by exact V; discriminate H|].
  pose proof (proj1 (positive_extra e) V) as He.
  assert (He' : (0 < e')%Q).
  { eapply Qlt_le_trans; [exact He|].
    eapply Qle_trans; [apply Qle_ceiling | exact Hle]. }
  rewrite (extendBooking_valid i (Num e) w V) in H.
  rewrite (extendBooking_valid i (Num e') w (proj2 (positive_extra e') He')).
  destruct (find _ (table w)) as [b|]; [|discriminate H].
  destruct (isValid (proposedCheckout b (Num e))) eqn:P; cbn [negb] in H;
    [|discriminate H].
  destruct (extensionConflictb b (Num e) (table w)) eqn:C.
  2:{ destruct (add (Num (Prisma.numberOfNights b)) (Num e));
        discriminate H. }
  destruct (isValid (proposedCheckout b (Num e'))) eqn:P'; cbn [negb];
    [|right; reflexivity].
  left.
  apply isValid_Day in P, P'. destruct P as [p Hp], P' as [p' Hp'].
  rewrite proposedCheckout_addNights, newDate_addNights in Hp, Hp'.
  destruct (addNights_Day _ _ _ Hp) as [cb [_ [_ [Hcb _]]]].
  destruct (addNights_Day_bounds _ _ _ Hp) as [Lo Hi].
  assert (E51 : 2 ^ 51 = 2251799813685248) by reflexivity.
  assert (E52 : 2 ^ 52 = 4503599627370496) by reflexivity.
  assert (C1 : - 2 ^ 51 < Qceiling e).
  { rewrite Zlt_Qlt. eapply Qlt_le_trans; [exact Lo | apply Qle_ceiling]. }
  assert (C2 : Qceiling e <= 2 ^ 51).
  { rewrite <- (Qceiling_Z (2 ^ 51)). apply Qceiling_resp_le. lra. }
  assert (L1 : p <= cb + Qceiling e).
  { apply (addNights_le (checkOut b) e cb p (Qceiling e));
      try assumption; [lia | apply Qle_ceiling]. }
  assert (L2 : cb + Qceiling e <= p').
  { apply (addNights_ge (checkOut b) e' cb p' (Qceiling e));
      try assumption. lia. }
  rewrite <- proposedCheckout_addNights in Hp, Hp'.
  rewrite (extensionConflictb_mono b (Num e) (Num e') (table w) p p' Hp Hp'
             ltac:(lia) C).
  reflexivity.
Qed.

Lemma longer_extension_refused_witness :
  response (extendBooking 1 (Num 2) worldAC)
    = Json 409 (Message EXTENSION_CONFLICT)
  /\ (response (extendBooking 1 (Num (inject_Z (10 ^ 9))) worldAC)
      = Json 409 (Message EXTENSION_CONFLICT)
      \/ response (extendBooking 1 (Num (inject_Z (10 ^ 9))) worldAC)
         = Thrown).
Proof.
  split; [vm_compute; reflexivity|].
  apply (longer_extension_refused 1 1 (inject_Z (10 ^ 9)) worldAC).
  - vm_compute. reflexivity.
  - vm_compute. discriminate.
Defined.

(** X14: when a booking of a whole number of nights is extended by a whole
    number of nights, the checkout of the updated record is the proposed
    checkout the conflict scan used, and is later than the old checkout. *)
Theorem extension_stores_checked_checkout (i : Z) (e : Q) (w : World)
    (u : Prisma.booking) :
  response (extendBooking i (Num e) w) = Json 200 (Saved u) ->
  isInteger e = true ->
  exists b, find (fun r => Prisma.id r =? i) (table w) = Some b
    /\ (isInteger (Prisma.numberOfNights b) = true ->
        checkOut u = proposedCheckout b (Num e)
        /\ ltDate (checkOut b) (checkOut u) = true).
Proof.
  intros H Hx.
  destruct (extendBooking_accepted i (Num e) w u H)
    as [b [e0 [s [E [He [F [V [_ [A [-> _]]]]]]]]]].
  injection E as <-.
  exists b. split; [exact F|]. intros Hi.
  destruct (extended_checkOut b e s Hi Hx V A)
    as [P [kb [ke [Hkb [Hke _]]]]].
  split; [exact P|]. rewrite P.
  destruct (extension_whole b e kb ke Hkb Hke V)
    as [tb [_ [_ [-> [-> _]]]]].
  cbn [ltDate]. apply Z.ltb_lt.
  assert (0 < ke); [|lia].
  rewrite Zlt_Qlt. now rewrite <- Hke.
Qed.

Lemma extension_stores_checked_checkout_witness :
  exists u, response (extendBooking 1 (Num 2) worldA) = Json 200 (Saved u)
            /\ checkOut u = Day (today + 7).
Proof.
  exists (setNights 7 rowA).
  assert (R : response (extendBooking 1 (Num 2) worldA)
              = Json 200 (Saved (setNights 7 rowA)))
    by (vm_compute; reflexivity).
  split; [exact R|].
  destruct (extension_stores_checked_checkout 1 2 worldA _ R eq_refl)
    as [b [F K]].
  rewrite table_worldA in F. vm_compute in F. injection F as <-.
  assert (I5 : isInteger 5 = true) by (vm_compute; reflexivity).
  destruct (K I5) as [-> _]. vm_compute. reflexivity.
Defined.

(** X15: a valid extension of a booking that is the only one on its unit is
    accepted whenever the proposed checkout is a valid date, and the record
    comes back with the double-precision sum of its nights and the extra
    ones; otherwise the request ends in an error. *)
Theorem lone_booking_extended (i : Z) (x : number) (w : World)
    (b : Prisma.booking) :
  ~ invalidExtraNights x ->
  find (fun r => Prisma.id r =? i) (table w) = Some b ->
  (forall o, In o (table w) -> Prisma.unitID o = Prisma.unitID b ->
             Prisma.id o = Prisma.id b) ->
  (isValid (proposedCheckout b x) = true ->
   exists e s, x = Num e
     /\ add (Num (Prisma.numberOfNights b)) (Num e) = Num s
     /\ response (extendBooking i x w) = Json 200 (Saved (setNights s b)))
  /\ (isValid (proposedCheckout b x) = false ->
      response (extendBooking i x w) = Thrown).
Proof.
  intros V F Lone.
  rewrite (extendBooking_valid i x w V), F.
  split; intros P; rewrite P; cbn [negb]; [|reflexivity].
  assert (C : extensionConflictb b x (table w) = false).
  { apply not_true_is_false. intros C. apply extensionConflictb_spec in C.
    destruct C as [o [Hin [Hu [Hi _]]]]. exact (Hi (Lone o Hin Hu)). }
  rewrite C.
  assert (Hx : exists e, x = Num e).
  { apply isValid_Day in P. destruct P as [p Hp].
    rewrite proposedCheckout_addNights, newDate_addNights in Hp.
    destruct (addNights_Day _ _ _ Hp) as [_ [q [_ [_ [Hq _]]]]]. eauto. }
  destruct Hx as [e ->].
  destruct (extension_sum_finite b e P) as [s A].
  exists e, s. rewrite A. repeat split; reflexivity.
Qed.

Lemma lone_booking_extended_witness :
  exists e s, Num (3 # 2) = Num e
    /\ add (Num (Prisma.numberOfNights rowA)) (Num e) = Num s
    /\ response (extendBooking 1 (Num (3 # 2)) worldA)
       = Json 200 (Saved (setNights s rowA)).
Proof.
  refine (proj1 (lone_booking_extended 1 (Num (3 # 2)) worldA rowA _ _ _) _).
  - simpl. intros [H|H]; discriminate H.
  - vm_compute. reflexivity.
  - rewrite table_worldA. intros o [<-|[]] _. reflexivity.
  - vm_compute. reflexivity.
Defined.

(** X16: after a booking of a whole number of nights that is not negative
    has been extended by a whole number of nights, a create request by a
    guest without a booking for the same unit, with a number of nights that
    is not negative, a checkout that is a valid date and a check-in date
    from the old checkout up to the day before the new checkout, is refused
    with UNIT_OCCUPIED. *)
Theorem extended_nights_are_taken (i : Z) (e : Q) (w : World)
    (b u : Prisma.booking) (c : Booking) (n : Q) (cb d cu : Z) :
  find (fun r => Prisma.id r =? i) (table w) = Some b ->
  isInteger (Prisma.numberOfNights b) = true ->
  (0 <= Prisma.numberOfNights b)%Q ->
  isInteger e = true ->
  response (extendBooking i (Num e) w) = Json 200 (Saved u) ->
  (forall r, In r (table (after (extendBooking i (Num e) w))) ->
             Prisma.guestName r <> guestName c) ->
  unitID c = Prisma.unitID b ->
  numberOfNights c = Num n -> (0 <= n)%Q ->
  isValid (candidateCheckOut c) = true ->
  checkOut b = Day cb -> candidateCheckIn c = Day d -> checkOut u = Day cu ->
  cb <= d < cu ->
  response (createBooking c (after (extendBooking i (Num e) w)))
    = Json 400 (Text UNIT_OCCUPIED).
Proof.
  intros F Hi Hb Hx H Hg Hu Hn Pn Vo Ecb Ed Ecu Hd.
  destruct (extendBooking_accepted i (Num e) w u H)
    as [b' [e0 [s [E [He [F' [V [_ [A [-> T]]]]]]]]]].
  injection E as <-. rewrite F in F'. injection F' as <-.
  destruct (find_id _ _ _ F) as [Hin Hid].
  assert (Hu' : In (setNights s b) (table (after (extendBooking i (Num e) w)))).
  { rewrite T. unfold after. cbn [snd table].
    apply in_map_iff. exists b. split; [|exact Hin].
    now rewrite (proj2 (Z.eqb_eq _ _) Hid). }
  destruct (isInteger_Z _ Hi) as [kb Hkb].
  destruct (checkOut_whole_Day b kb cb Hkb Ecb) as [tb [Hci [_ [-> _]]]].
  assert (0 <= kb).
  { rewrite Zle_Qle. now rewrite <- Hkb. }
  pose proof (candidateCheckIn_valid c d Ed) as Vi.
  refine (proj1 (refused_as_occupied c _
                   (proj2 (guestAlreadyBooked_none c _) Hg) Vi _)).
  destruct (Z.eq_dec d tb) as [->|Hne].
  - left. apply (checkInCollision_spec c _ Vi).
    exists (setNights s b). split; [exact Hu'|].
    cbn [setNights Prisma.unitID Prisma.checkInDate].
    split; [now symmetry|].
    apply checkIn_Day in Hci. apply candidateCheckIn_Day in Ed.
    destruct Hci as [-> _]. destruct Ed as [-> _]. reflexivity.
  - right. split; [exact Vo|].
    apply (inside_stay_overlaps c (setNights s b) _ n); try assumption.
    + cbn [setNights Prisma.unitID]. now symmetry.
    + rewrite setNights_checkIn, Hci, Ed. cbn [ltDate]. apply Z.ltb_lt. lia.
    + rewrite Ed, Ecu. cbn [ltDate]. apply Z.ltb_lt. lia.
Qed.

Lemma extended_nights_are_taken_witness :
  response (createBooking (mkBooking "GuestB" "1" (Day (today + 6)) (Num 1))
              (after (extendBooking 1 (Num 2) worldA)))
    = Json 400 (Text UNIT_OCCUPIED).
Proof.
  refine (extended_nights_are_taken 1 2 worldA rowA (setNights 7 rowA)
            (mkBooking "GuestB" "1" (Day (today + 6)) (Num 1)) 1
            (today + 5) (today + 6) (today + 7) _ _ _ _ _ _ _ _ _ _ _ _ _ _).
  - vm_compute. reflexivity.
  - vm_compute. reflexivity.
  - vm_compute. discriminate.
  - vm_compute. reflexivity.
  - vm_compute. reflexivity.
  - replace (table (after (extendBooking 1 (Num 2) worldA)))
      with [setNights 7 rowA] by (vm_compute; reflexivity).
    intros r [<-|[]]. discriminate.
  - reflexivity.
  - reflexivity.
  - vm_compute. discriminate.
  - vm_compute. reflexivity.
  - vm_compute. reflexivity.
  - vm_compute. reflexivity.
  - vm_compute. reflexivity.
  - unfold today. lia.
Defined.

(** ** Any sequence of requests *)



